(** * corenet: base class of the language-modeling iterable datasets

    A shallow embedding of
    [corenet/data/datasets/language_modeling/base_lm.py]:
    the text normalizer [_process_text], the class
    [BaseLMIterableDataset] with [_tokenize_text], [generate_sample]
    and [__iter__], and the properties of them stated in the
    specification.

    Conventions of the embedding.
    - A Python [int] is a [Z].
    - A Python [str] is a Rocq [string] read as a sequence of code
      points below 256 (one [ascii] per character, Latin-1), so
      [String.length] is Python's [len].  Case mapping and the
      whitespace class are the ones CPython has on that range.
    - A one-dimensional integer tensor is a [list Z]; its [shape[0]]
      is its length.  The entries are token ids, which the code only
      copies and never computes with, so no wrap-around arises.
    - Code that may raise or that calls the tokenizer (an external,
      possibly stateful collaborator) lives in a state-and-exception
      monad over the objects an instance owns: the tokenizer's state
      and the state of the private random generator.
    - [build_tokenizer] and the superclass [BaseIterableDataset] are
      defined elsewhere in corenet: the former is a parameter, the
      latter is the record of the topology accessors [__iter__] reads. *)

From Stdlib Require Import ZArith Lia Ascii String DecimalString DecimalZ.
From stdpp Require Import base list strings gmap.

Local Open Scope Z_scope.

(** ** Python characters and strings *)

Module Py.

(** [ord(c)] *)
Definition ord (c : ascii) : Z := Z.of_N (N_of_ascii c).

(** [chr(n)] for [0 <= n < 256] *)
Definition chr (n : Z) : ascii := ascii_of_N (Z.to_N n).

(** The characters [str.lower] changes on the range below 256:
    [A-Z], and the Latin-1 capitals U+00C0..U+00DE except the
    multiplication sign U+00D7. *)
Definition isupper (c : ascii) : bool :=
  let n := ord c in
  ((65 <=? n) && (n <=? 90))
  || ((192 <=? n) && (n <=? 222) && negb (n =? 215)).

Definition lower_char (c : ascii) : ascii :=
  if isupper c then chr (ord c + 32) else c.

(** [s.lower()] *)
Fixpoint lower (s : string) : string :=
  match s with
  | EmptyString => EmptyString
  | String c s' => String (lower_char c) (lower s')
  end.

(** [string.punctuation]: the 32 ASCII punctuation characters, in
    the order of the standard library's constant. *)
Definition punctuation : string :=
  String "!" (String (chr 34) "#$%&'()*+,-./:;<=>?@[\]^_`{|}~").

(** [c in s] for a one-character [c] *)
Fixpoint str_contains (s : string) (c : ascii) : bool :=
  match s with
  | EmptyString => false
  | String d s' => Ascii.eqb d c || str_contains s' c
  end.

(** [s.translate(str.maketrans("", "", deletechars))]: the table maps
    every character of [deletechars] to [None], so those characters are
    dropped and all others are kept. *)
Fixpoint translate_delete (deletechars s : string) : string :=
  match s with
  | EmptyString => EmptyString
  | String c s' =>
      if str_contains deletechars c
      then translate_delete deletechars s'
      else String c (translate_delete deletechars s')
  end.

(** [Py_UNICODE_ISSPACE] below 256: TAB, LF, VT, FF, CR, the four
    separators U+001C..U+001F, SPACE, NEL (U+0085) and NBSP (U+00A0).
    Both [str.strip()] and the class [\s] of [re] on [str] patterns
    use it. *)
Definition isspace (c : ascii) : bool :=
  let n := ord c in
  ((9 <=? n) && (n <=? 13))
  || ((28 <=? n) && (n <=? 32))
  || (n =? 133) || (n =? 160).

Definition str_is_empty (s : string) : bool :=
  match s with EmptyString => true | String _ _ => false end.

Fixpoint lstrip (s : string) : string :=
  match s with
  | EmptyString => EmptyString
  | String c s' => if isspace c then lstrip s' else s
  end.

Fixpoint rstrip (s : string) : string :=
  match s with
  | EmptyString => EmptyString
  | String c s' =>
      let r := rstrip s' in
      if isspace c && str_is_empty r then EmptyString else String c r
  end.

(** [s.strip()] *)
Definition strip (s : string) : string := rstrip (lstrip s).

(** [re.sub(r"\s+", " ", s)]: scanning left to right, every maximal
    run of whitespace is one match of [\s+] and is replaced by a single
    space.  [in_run] tells that the previous character belonged to the
    run being replaced. *)
Fixpoint sub_ws_runs (in_run : bool) (s : string) : string :=
  match s with
  | EmptyString => EmptyString
  | String c s' =>
      if isspace c
      then if in_run then sub_ws_runs true s'
           else String " " (sub_ws_runs true s')
      else String c (sub_ws_runs false s')
  end.

Definition re_sub_ws (s : string) : string := sub_ws_runs false s.

(** [len(s)] *)
Definition len (s : string) : Z := Z.of_nat (String.length s).

End Py.

(** ** [_process_text] (base_lm.py, lines 19-43) *)

Definition _process_text (text : string) : string :=
  let text := Py.lower text in
  let text := Py.translate_delete Py.punctuation text in
  let text := Py.re_sub_ws (Py.strip text) in
  text.


(** ** Exceptions, outcomes and the monad of the embedding *)

Inductive exn : Type :=
  | NotImplementedError (msg : string)
  | RuntimeError (msg : string)
  | ExternalError (msg : string).

Inductive outcome (A : Type) : Type :=
  | Ret (a : A)
  | Raise (e : exn).
Arguments Ret {A} a.
Arguments Raise {A} e.

(** [random.Random(seed)]: the generator is determined by the seed it
    was built from and by how many numbers were drawn from it. *)
Record Random : Type := { rng_seed : Z; rng_draws : nat }.

Definition random_Random (seed : Z) : Random :=
  {| rng_seed := seed; rng_draws := 0 |}.

(** The mutable objects an instance owns: the state of its tokenizer
    (of a type [S] the tokenizer chooses) and the state of its private
    random generator [self._rng]. *)
Record World (S : Type) : Type := { tok_state : S; rng_state : Random }.
Arguments tok_state {S} w.
Arguments rng_state {S} w.

Definition M (S A : Type) : Type := World S -> outcome A * World S.

Definition ret {S A} (a : A) : M S A := fun w => (Ret a, w).

Definition bind {S A B} (m : M S A) (k : A -> M S B) : M S B :=
  fun w =>
    match m w with
    | (Ret a, w') => k a w'
    | (Raise e, w') => (Raise e, w')
    end.

(** A pure computation that may raise, run inside the monad. *)
Definition lift {S A} (o : outcome A) : M S A := fun w => (o, w).

Declare Scope py_scope.
Delimit Scope py_scope with py.
Notation "x <- m ;; k" := (bind m (fun x => k))
  (at level 100, m at next level, right associativity) : py_scope.

(** ** One-dimensional integer tensors *)

Module Torch.

Abbreviation Tensor := (list Z).

(** [t.shape[0]] *)
Definition shape0 (t : Tensor) : Z := Z.of_nat (length t).

(** [torch.full(size=(size,), fill_value=v, dtype=torch.long)]; a
    negative dimension is refused. *)
Definition full (size fill_value : Z) : outcome Tensor :=
  if size <? 0
  then Raise (RuntimeError "Trying to create tensor with negative dimension")
  else Ret (replicate (Z.to_nat size) fill_value).

(** A bound of a slice on a sequence of length [n], as Python
    normalizes it: a negative bound counts from the end, and the result
    is clamped to [0 .. n]. *)
Definition slice_bound (n i : Z) : Z :=
  if i <? 0 then Z.max 0 (i + n) else Z.min i n.

Definition slice_start (n : Z) (start : option Z) : Z :=
  match start with None => 0 | Some i => slice_bound n i end.

Definition slice_stop (n : Z) (stop : option Z) : Z :=
  match stop with None => n | Some i => slice_bound n i end.

(** How many positions [start:stop] selects. *)
Definition slice_len (n : Z) (start stop : option Z) : Z :=
  Z.max 0 (slice_stop n stop - slice_start n start).

(** [t[start:stop]] *)
Definition getitem_slice (t : Tensor) (start stop : option Z) : Tensor :=
  let n := shape0 t in
  take (Z.to_nat (slice_len n start stop))
       (drop (Z.to_nat (slice_start n start)) t).

(** [t[start:stop] = src]: [src] must have as many entries as the
    slice, or one entry, which is then broadcast; [t] keeps its
    length. *)
Definition setitem_slice (t : Tensor) (start stop : option Z) (src : Tensor)
  : outcome Tensor :=
  let n := shape0 t in
  let a := Z.to_nat (slice_start n start) in
  let k := Z.to_nat (slice_len n start stop) in
  if decide (length src = k)
  then Ret (take a t ++ src ++ drop (a + k) t)
  else match src with
       | [v] => Ret (take a t ++ replicate k v ++ drop (a + k) t)
       | _ => Raise (RuntimeError "The expanded size of the tensor must match the existing size")
       end.

End Torch.

Import Torch.

(** ** Collaborators of the class *)

(** The tokenizer built by [build_tokenizer(opts)]: a callable from
    text to a one-dimensional tensor of token ids, which may raise and
    may change its own state, with the fixed properties [pad_token_id]
    and [vocab_size]. *)
Record Tokenizer (S : Type) : Type := {
  tok_call : string -> S -> outcome Tensor * S;
  tok_pad_token_id : Z;
  tok_vocab_size : Z
}.
Arguments tok_call {S} t text s.
Arguments tok_pad_token_id {S} t.
Arguments tok_vocab_size {S} t.

(** [self.tokenizer(text)] in the monad: only the tokenizer's own state
    is touched. *)
Definition call_tokenizer {S} (tk : Tokenizer S) (text : string) : M S Tensor :=
  fun w =>
    let '(r, s') := tok_call tk text (tok_state w) in
    (r, {| tok_state := s'; rng_state := rng_state w |}).

(** The world after a tokenizer call that left the tokenizer in [s']. *)
Definition after_call {S} (w : World S) (s' : S) : World S :=
  {| tok_state := s'; rng_state := rng_state w |}.

(** The command-line namespace [opts]: the five options that
    [add_arguments] registers under [dataset.language_modeling], and
    the options of the other components. *)
Record Namespace : Type := {
  opt_sequence_length : Z;
  opt_min_tokens_per_text : Z;
  opt_min_characters_per_text : Z;
  opt_shuffle_data : bool;
  opt_random_seed : Z;
  opt_others : list (string * string)
}.

(** The defaults of [add_arguments]. *)
Definition default_opts : Namespace :=
  {| opt_sequence_length := 2048;
     opt_min_tokens_per_text := 0;
     opt_min_characters_per_text := 0;
     opt_shuffle_data := false;
     opt_random_seed := 0;
     opt_others := [] |}.

Definition with_random_seed (o : Namespace) (seed : Z) : Namespace :=
  {| opt_sequence_length := opt_sequence_length o;
     opt_min_tokens_per_text := opt_min_tokens_per_text o;
     opt_min_characters_per_text := opt_min_characters_per_text o;
     opt_shuffle_data := opt_shuffle_data o;
     opt_random_seed := seed;
     opt_others := opt_others o |}.

(** What the superclass [BaseIterableDataset] gives an instance: the
    topology accessors read by [__iter__]. *)
Record BaseIterableDataset : Type := {
  base_world_size : Z;
  base_num_workers : Z;
  base_rank : Z;
  base_worker_id : Z
}.

(** What a generator yields: Python leaves it open, a raw text unit or
    a dictionary of tensors. *)
Inductive PyObj : Type :=
  | PyStr (s : string)
  | PyDict (d : gmap string Tensor).

(** One resumption of a generator whose state has type [G]. *)
Inductive step (G : Type) : Type :=
  | Yield (x : PyObj) (g : G)
  | Stop.
Arguments Yield {G} x g.
Arguments Stop {G}.

(** The state of the generator that [__iter__] returns: not started,
    or delegating to the generator [g] obtained from
    [generate_sample]. *)
Inductive iter_state (G : Type) : Type :=
  | NotStarted
  | Delegating (g : G).
Arguments NotStarted {G}.
Arguments Delegating {G} g.

(** How pulling from a generator a bounded number of times ended. *)
Inductive ending : Type :=
  | Suspended
  | Exhausted
  | Failed (e : exn).

(** ** [BaseLMIterableDataset] (base_lm.py, lines 46-220) *)

Section BaseLM.

Context {S : Type}.

(** [corenet.data.text_tokenizer.build_tokenizer] *)
Variable build_tokenizer : Namespace -> Tokenizer S.

Record BaseLMIterableDataset : Type := {
  super : BaseIterableDataset;
  opts : Namespace;
  shuffle_data : bool;
  _rng : Random;
  sequence_length : Z;
  min_tokens_per_text : Z;
  min_characters_per_text : Z;
  tokenizer : Tokenizer S
}.

Definition world_size (self : BaseLMIterableDataset) : Z := base_world_size (super self).
Definition num_workers (self : BaseLMIterableDataset) : Z := base_num_workers (super self).
Definition rank (self : BaseLMIterableDataset) : Z := base_rank (super self).
Definition worker_id (self : BaseLMIterableDataset) : Z := base_worker_id (super self).

(** [__init__], lines 53-68.  [self.seed] is the property of lines
    80-84, read from the options. *)
Definition __init__ (base : BaseIterableDataset) (o : Namespace)
  : BaseLMIterableDataset :=
  {| super := base;
     opts := o;
     shuffle_data := opt_shuffle_data o;
     _rng := random_Random (opt_random_seed o);
     sequence_length := opt_sequence_length o;
     min_tokens_per_text := opt_min_tokens_per_text o;
     min_characters_per_text := opt_min_characters_per_text o;
     tokenizer := build_tokenizer o |}.

(** The objects a fresh instance owns. *)
Definition initial_world (self : BaseLMIterableDataset) (s0 : S) : World S :=
  {| tok_state := s0; rng_state := _rng self |}.

Definition pad_token_id (self : BaseLMIterableDataset) : Z :=
  tok_pad_token_id (tokenizer self).

Definition vocab_size (self : BaseLMIterableDataset) : Z :=
  tok_vocab_size (tokenizer self).

Definition seed (self : BaseLMIterableDataset) : Z :=
  opt_random_seed (opts self).

(** [_tokenize_text], lines 86-127.  [None] is the skip signal. *)
Definition _tokenize_text (self : BaseLMIterableDataset) (text : string)
  : M S (option (gmap string Tensor)) :=
  if Py.len (_process_text text) <? min_characters_per_text self
  then ret None
  else
    (tokenized_text <- call_tokenizer (tokenizer self) text ;;
     let n_tokens := shape0 tokenized_text in
     if n_tokens <? min_tokens_per_text self
     then ret None
     else
       let valid_seq_length := Z.min n_tokens (sequence_length self + 1) in
       content_tensor <-
         lift (full (sequence_length self + 1) (pad_token_id self)) ;;
       content_tensor <-
         lift (setitem_slice content_tensor None (Some valid_seq_length)
                 (getitem_slice tokenized_text None (Some valid_seq_length))) ;;
       ret (Some {[ "samples" := getitem_slice content_tensor None (Some (-1));
                    "targets" := getitem_slice content_tensor (Some 1) None ]}))%py.

(** A class deriving from [BaseLMIterableDataset] is given by its
    [generate_sample]: calling it returns a generator object (or
    raises), and [gen_next] resumes that generator once. *)
Record LMClass : Type := {
  gen_state : Type;
  generate_sample : BaseLMIterableDataset -> Z -> Z -> outcome gen_state;
  gen_next : BaseLMIterableDataset -> gen_state -> M S (step gen_state)
}.

(** [generate_sample] of the base class itself, lines 169-196: it has
    no [yield], so the call raises at once. *)
Definition base_generate_sample (self : BaseLMIterableDataset)
    (scaled_rank scaled_world_size : Z) : outcome Empty_set :=
  Raise (NotImplementedError "Child class must implement 'generate_sample' function.").

Definition BaseLM : LMClass :=
  {| gen_state := Empty_set;
     generate_sample := base_generate_sample;
     gen_next := fun _ g => match g with end |}.

(** The shard coordinate of lines 207-208. *)
Definition scaled_world_size (self : BaseLMIterableDataset) : Z :=
  world_size self * num_workers self.

Definition scaled_rank (self : BaseLMIterableDataset) : Z :=
  rank self * num_workers self + worker_id self.

(** [__iter__], lines 198-211, is a generator function: the call
    returns a generator that has not started; its first resumption
    computes the shard coordinate and calls [generate_sample], and
    [yield from] hands every resumption to the generator obtained. *)
Definition __iter__ (cls : LMClass) (self : BaseLMIterableDataset)
  : iter_state (gen_state cls) := NotStarted.

Definition yield_from (cls : LMClass) (self : BaseLMIterableDataset)
    (g : gen_state cls) : M S (step (iter_state (gen_state cls))) :=
  (r <- gen_next cls self g ;;
   ret (match r with
        | Yield x g' => Yield x (Delegating g')
        | Stop => Stop
        end))%py.

Definition iter_next (cls : LMClass) (self : BaseLMIterableDataset)
    (st : iter_state (gen_state cls)) : M S (step (iter_state (gen_state cls))) :=
  match st with
  | NotStarted =>
      (g <- lift (generate_sample cls self (scaled_rank self) (scaled_world_size self)) ;;
       yield_from cls self g)%py
  | Delegating g => yield_from cls self g
  end.

End BaseLM.

(** The consumer: at most [n] calls of [next], collecting what was
    yielded. *)
Fixpoint pull {S G : Type} (next : G -> M S (step G)) (n : nat) (g : G) (w : World S)
  : list PyObj * ending * World S :=
  match n with
  | O => ([], Suspended, w)
  | Datatypes.S n' =>
      match next g w with
      | (Ret (Yield x g'), w') =>
          let '(xs, e, w'') := pull next n' g' w' in (x :: xs, e, w'')
      | (Ret Stop, w') => ([], Exhausted, w')
      | (Raise e, w') => ([], Failed e, w')
      end
  end.

(** ** The iteration driver as the specification words it

    For every raw text unit the subclass generator yields, in order:
    filter and frame it with [_tokenize_text], skip it when that gives
    [None], yield the pair otherwise.  [n] bounds the number of units
    taken from the subclass generator. *)
Fixpoint driver_as_specified {S : Type} (cls : @LMClass S)
    (self : BaseLMIterableDataset) (n : nat) (g : gen_state cls) (w : World S)
  : list PyObj * ending * World S :=
  match n with
  | O => ([], Suspended, w)
  | Datatypes.S n' =>
      match gen_next cls self g w with
      | (Ret (Yield (PyStr text) g'), w') =>
          match _tokenize_text self text w' with
          | (Ret None, w'') => driver_as_specified cls self n' g' w''
          | (Ret (Some d), w'') =>
              let '(xs, e, w3) := driver_as_specified cls self n' g' w'' in
              (PyDict d :: xs, e, w3)
          | (Raise e, w'') => ([], Failed e, w'')
          end
      | (Ret (Yield (PyDict _) g'), w') =>
          ([], Failed (RuntimeError "not a raw text unit"), w')
      | (Ret Stop, w') => ([], Exhausted, w')
      | (Raise e, w') => ([], Failed e, w')
      end
  end.

(** ** Concrete collaborators used in the examples *)

(** A tokenizer with one token per character, the character's code
    point.  Its state is the list of the texts it was called with, most
    recent first. *)
Definition char_tokenizer : Tokenizer (list string) :=
  {| tok_call := fun text calls =>
       (Ret (map Py.ord (list_ascii_of_string text)), text :: calls);
     tok_pad_token_id := 0;
     tok_vocab_size := 256 |}.

(** A tokenizer that answers every text with the same tokens. *)
Definition constant_tokenizer (tokens : Tensor) (pad : Z) : Tokenizer unit :=
  {| tok_call := fun _ s => (Ret tokens, s);
     tok_pad_token_id := pad;
     tok_vocab_size := 10 |}.


Definition topology (world_size num_workers rank worker_id : Z) : BaseIterableDataset :=
  {| base_world_size := world_size;
     base_num_workers := num_workers;
     base_rank := rank;
     base_worker_id := worker_id |}.

Definition opts_of (sequence_length min_tokens min_characters : Z) : Namespace :=
  {| opt_sequence_length := sequence_length;
     opt_min_tokens_per_text := min_tokens;
     opt_min_characters_per_text := min_characters;
     opt_shuffle_data := false;
     opt_random_seed := 0;
     opt_others := [] |}.

(** A subclass whose [generate_sample] yields the raw text units of a
    fixed corpus, one after the other. *)
Definition RawTextDataset {S : Type} (corpus : list string) : @LMClass S :=
  {| gen_state := list string;
     generate_sample := fun _ _ _ => Ret corpus;
     gen_next := fun _ g =>
       match g with
       | [] => ret Stop
       | text :: rest => ret (Yield (PyStr text) rest)
       end |}.

(** A subclass whose [generate_sample] frames the units itself with
    the inherited [_tokenize_text] and yields the accepted ones, taking
    the units of its shard: those at the positions congruent to
    [scaled_rank] modulo [scaled_world_size]. *)
Fixpoint next_framed {S : Type} (self : @BaseLMIterableDataset S) (g : list string)
  : M S (step (list string)) :=
  match g with
  | [] => ret Stop
  | text :: rest =>
      (r <- _tokenize_text self text ;;
       match r with
       | None => next_framed self rest
       | Some d => ret (Yield (PyDict d) rest)
       end)%py
  end.

Fixpoint shard_of (corpus : list string) (position scaled_rank scaled_world_size : Z)
  : list string :=
  match corpus with
  | [] => []
  | text :: rest =>
      let tail := shard_of rest (position + 1) scaled_rank scaled_world_size in
      if position mod scaled_world_size =? scaled_rank then text :: tail else tail
  end.

Definition FramedDataset {S : Type} (corpus : list string) : @LMClass S :=
  {| gen_state := list string;
     generate_sample := fun _ scaled_rank scaled_world_size =>
       if scaled_world_size =? 0
       then Raise (ExternalError "integer modulo by zero")
       else Ret (shard_of corpus 0 scaled_rank scaled_world_size);
     gen_next := next_framed |}.

(** An instance over a given tokenizer, on a single process with a
    single worker. *)
Definition dataset_with {S : Type} (tk : Tokenizer S) (o : Namespace)
  : @BaseLMIterableDataset S :=
  __init__ (fun _ => tk) (topology 1 1 0 0) o.

(** The same dataset on another worker of the topology. *)
Definition on_worker {S : Type} (self : @BaseLMIterableDataset S)
    (base : BaseIterableDataset) : @BaseLMIterableDataset S :=
  {| super := base;
     opts := opts self;
     shuffle_data := shuffle_data self;
     _rng := _rng self;
     sequence_length := sequence_length self;
     min_tokens_per_text := min_tokens_per_text self;
     min_characters_per_text := min_characters_per_text self;
     tokenizer := tokenizer self |}.

(** A one-unit corpus and the dataset that reads it, with the
    tokenizer of one token per character and neither filter active. *)
Definition one_unit_corpus : list string := ["Hi there"%string].

Definition one_unit_dataset : @BaseLMIterableDataset (list string) :=
  dataset_with char_tokenizer (opts_of 4 0 0).

Definition one_unit_world : World (list string) :=
  initial_world one_unit_dataset [].

(** The content buffer of the specification: [sequence_length + 1]
    entries, the first [min(n_tokens, sequence_length + 1)] of them the
    tokens, the others the padding token. *)
Definition content_buffer (sequence_length pad : Z) (tokens : Tensor) : Tensor :=
  let valid_seq_length := Z.min (shape0 tokens) (sequence_length + 1) in
  take (Z.to_nat valid_seq_length) tokens
  ++ replicate (Z.to_nat (sequence_length + 1 - valid_seq_length)) pad.

(** ** A tokenizer under observation *)

(** The tokenizer [tk] with a log of the texts it was called with, most
    recent first; it answers as [tk] does. *)
Definition logging {S : Type} (tk : Tokenizer S) : Tokenizer (S * list string) :=
  {| tok_call := fun text state =>
       let '(r, s') := tok_call tk text (fst state) in
       (r, (s', text :: snd state));
     tok_pad_token_id := tok_pad_token_id tk;
     tok_vocab_size := tok_vocab_size tk |}.

(** The instance [self] with its tokenizer under observation. *)
Definition observed {S : Type} (self : @BaseLMIterableDataset S)
  : @BaseLMIterableDataset (S * list string) :=
  {| super := super self;
     opts := opts self;
     shuffle_data := shuffle_data self;
     _rng := _rng self;
     sequence_length := sequence_length self;
     min_tokens_per_text := min_tokens_per_text self;
     min_characters_per_text := min_characters_per_text self;
     tokenizer := logging (tokenizer self) |}.

(** ** [add_arguments] (base_lm.py, lines 129-167) *)

(** A value of an option: the five options of this class are integers
    and one flag. *)
Inductive PyVal : Type :=
  | PyInt (z : Z)
  | PyBool (b : bool).

(** What [add_argument] was given: [type=int] with a default, or
    [action="store_true"]. *)
Inductive ArgKind : Type :=
  | TypeInt
  | StoreTrue.

Record Action : Type := {
  option_string : string;
  arg_kind : ArgKind;
  arg_default : PyVal;
  arg_help : string;
  arg_group : string
}.

(** An [argparse.ArgumentParser] with the default conflict handler: the
    actions registered so far, in order.  The groups of a parser share
    its table of option strings. *)
Abbreviation ArgumentParser := (list Action).

(** Sequencing of computations that may raise. *)
Definition and_then {A B : Type} (o : outcome A) (k : A -> outcome B) : outcome B :=
  match o with
  | Ret a => k a
  | Raise e => Raise e
  end.

Definition registered (parser : ArgumentParser) (flag : string) : bool :=
  existsb (String.eqb flag) (map option_string parser).

(** [group.add_argument(flag, ...)]: an option string that is already
    registered is a conflict, which the default handler reports by
    raising [argparse.ArgumentError]. *)
Definition add_argument (parser : ArgumentParser) (a : Action)
  : outcome ArgumentParser :=
  if registered parser (option_string a)
  then Raise (ExternalError "argparse.ArgumentError: conflicting option string")
  else Ret (parser ++ [a]).

(** The class an inherited classmethod is called on. *)
Inductive PyClass : Type :=
  | BaseLMIterableDataset_class
  | Derived_class (name : string).

Definition is_base_class (cls : PyClass) : bool :=
  match cls with
  | BaseLMIterableDataset_class => true
  | Derived_class _ => false
  end.

Definition sequence_length_action : Action :=
  {| option_string := "--dataset.language-modeling.sequence-length";
     arg_kind := TypeInt;
     arg_default := PyInt 2048;
     arg_help := "Tokenized sequence length. Defaults to 2048.";
     arg_group := "BaseLMIterableDataset" |}.

Definition min_tokens_action : Action :=
  {| option_string := "--dataset.language-modeling.min-tokens-per-text";
     arg_kind := TypeInt;
     arg_default := PyInt 0;
     arg_help := "Minimum number of tokens per text after tokenization. This flag allows us to skip short text sequences and avoid excessive padding. Defaults to 0.";
     arg_group := "BaseLMIterableDataset" |}.

Definition min_characters_action : Action :=
  {| option_string := "--dataset.language-modeling.min-characters-per-text";
     arg_kind := TypeInt;
     arg_default := PyInt 0;
     arg_help := "Minimum number of characters in a text sequence before tokenization. This flag allows us to skip short text sequences. Defaults to 0.";
     arg_group := "BaseLMIterableDataset" |}.

Definition shuffle_data_action : Action :=
  {| option_string := "--dataset.language-modeling.shuffle-data";
     arg_kind := StoreTrue;
     arg_default := PyBool false;
     arg_help := "The pre-training corpora consist of multiple text files. This flag can be utilized to enable shuffling of these data files. It defaults to False, with the note that the user is responsible for implementing the shuffling operation.";
     arg_group := "BaseLMIterableDataset" |}.

Definition random_seed_action : Action :=
  {| option_string := "--dataset.language-modeling.random-seed";
     arg_kind := TypeInt;
     arg_default := PyInt 0;
     arg_help := "Random seed for shuffling data files. Defaults to 0.";
     arg_group := "BaseLMIterableDataset" |}.

Definition add_arguments (cls : PyClass) (parser : ArgumentParser)
  : outcome ArgumentParser :=
  if is_base_class cls
  then
    and_then (add_argument parser sequence_length_action) (fun parser =>
    and_then (add_argument parser min_tokens_action) (fun parser =>
    and_then (add_argument parser min_characters_action) (fun parser =>
    and_then (add_argument parser shuffle_data_action) (fun parser =>
    add_argument parser random_seed_action))))
  else Ret parser.

(** [add_arguments] called for every class of a list, in order, as a
    registry of dataset classes does. *)
Fixpoint add_arguments_all (classes : list PyClass) (parser : ArgumentParser)
  : outcome ArgumentParser :=
  match classes with
  | [] => Ret parser
  | cls :: rest => and_then (add_arguments cls parser) (add_arguments_all rest)
  end.

(** The attribute an option is stored under: [argparse] takes the long
    option string without its leading dashes and with every other dash
    turned into an underscore. *)
Fixpoint lstrip_char (c : ascii) (s : string) : string :=
  match s with
  | EmptyString => EmptyString
  | String d s' => if Ascii.eqb d c then lstrip_char c s' else s
  end.

Fixpoint replace_char (old new : ascii) (s : string) : string :=
  match s with
  | EmptyString => EmptyString
  | String d s' =>
      String (if Ascii.eqb d old then new else d) (replace_char old new s')
  end.

Definition dest_of (flag : string) : string :=
  replace_char "-" "_" (lstrip_char "-" flag).

Definition arg_dest (a : Action) : string := dest_of (option_string a).

(** [parser.parse_args([])]: with nothing on the command line every
    action stores its default under its attribute, unless an earlier
    action has set that attribute. *)
Fixpoint parse_defaults_from (namespace : gmap string PyVal) (parser : ArgumentParser)
  : gmap string PyVal :=
  match parser with
  | [] => namespace
  | a :: rest =>
      parse_defaults_from
        (match namespace !! arg_dest a with
         | Some _ => namespace
         | None => <[arg_dest a := arg_default a]> namespace
         end)
        rest
  end.

Definition parse_no_args (parser : ArgumentParser) : gmap string PyVal :=
  parse_defaults_from ∅ parser.

(** [getattr(opts, name)] *)
Definition getattr (namespace : gmap string PyVal) (name : string) : outcome PyVal :=
  match namespace !! name with
  | Some v => Ret v
  | None => Raise (ExternalError "AttributeError")
  end.

(** The attributes of [opts] that [__init__] reads, in the order of
    lines 55-66 ([self.seed] of line 56 is the property of line 84). *)
Definition init_getattrs (namespace : gmap string PyVal)
  : outcome (PyVal * PyVal * PyVal * PyVal * PyVal) :=
  and_then (getattr namespace "dataset.language_modeling.shuffle_data") (fun shuffle_data =>
  and_then (getattr namespace "dataset.language_modeling.random_seed") (fun seed =>
  and_then (getattr namespace "dataset.language_modeling.sequence_length") (fun sequence_length =>
  and_then (getattr namespace "dataset.language_modeling.min_tokens_per_text") (fun min_tokens =>
  and_then (getattr namespace "dataset.language_modeling.min_characters_per_text") (fun min_characters =>
  Ret (shuffle_data, seed, sequence_length, min_tokens, min_characters)))))).

(** ** [extra_repr] (base_lm.py, lines 213-220) *)

(** [str(n)] for an integer: decimal digits, with a minus sign when
    negative. *)
Definition format_int (n : Z) : string := NilEmpty.string_of_int (Z.to_int n).

(** [str(b)] for a boolean *)
Definition format_bool (b : bool) : string :=
  if b then "True"%string else "False"%string.

(** The escapes [\n] and [\t] *)
Definition newline : ascii := Py.chr 10.
Definition tab : ascii := Py.chr 9.

(** One line [\n\t<name>=<value>] of the summary. *)
Definition repr_line (name value rest : string) : string :=
  String newline (String tab (name ++ String "=" (value ++ rest)))%string.

Definition extra_repr {S : Type} (self : @BaseLMIterableDataset S) : string :=
  repr_line "vocab_size" (format_int (vocab_size self))
    (repr_line "pad_token_id" (format_int (pad_token_id self))
       (repr_line "min_characters_per_text" (format_int (min_characters_per_text self))
          (repr_line "min_tokens_per_text" (format_int (min_tokens_per_text self))
             (repr_line "shuffle" (format_bool (shuffle_data self)) EmptyString)))).

(** * Properties *)

(** ** Slices *)

Section Slices.

Implicit Types t src : Tensor.

Lemma shape0_nonneg t : 0 <= shape0 t.
Proof. unfold shape0. lia. Qed.

Lemma getitem_prefix t k :
  0 <= k <= shape0 t -> getitem_slice t None (Some k) = take (Z.to_nat k) t.
Proof.
  intros Hk. unfold getitem_slice, slice_len, slice_start, slice_stop, slice_bound.
  destruct (Z.ltb_spec k 0); [lia|].
  rewrite Z.min_l by lia. rewrite Z.sub_0_r, Z.max_r by lia.
  reflexivity.
Qed.

Lemma getitem_all_but_last t :
  getitem_slice t None (Some (-1)) = take (length t - 1) t.
Proof.
  unfold getitem_slice, slice_len, slice_start, slice_stop, slice_bound, shape0.
  simpl. f_equal. lia.
Qed.

Lemma getitem_from_1 t : getitem_slice t (Some 1) None = drop 1 t.
Proof.
  unfold getitem_slice, slice_len, slice_start, slice_stop, slice_bound, shape0.
  simpl. destruct t as [|x t]; [reflexivity|].
  rewrite Z.min_l by (simpl length; lia).
  change (Z.to_nat 1) with 1%nat.
  apply take_ge. rewrite length_drop. simpl length. lia.
Qed.

Lemma setitem_prefix t k src :
  0 <= k <= shape0 t -> length src = Z.to_nat k ->
  setitem_slice t None (Some k) src = Ret (src ++ drop (Z.to_nat k) t).
Proof.
  intros Hk Hlen.
  unfold setitem_slice, slice_len, slice_start, slice_stop, slice_bound.
  destruct (Z.ltb_spec k 0); [lia|].
  rewrite Z.min_l by lia. rewrite Z.sub_0_r, Z.max_r by lia.
  rewrite decide_True by assumption.
  change (Z.to_nat 0) with 0%nat. reflexivity.
Qed.

Lemma getitem_range t a b :
  0 <= a <= b -> b <= shape0 t ->
  getitem_slice t (Some a) (Some b)
  = take (Z.to_nat (b - a)) (drop (Z.to_nat a) t).
Proof.
  intros Ha Hb.
  unfold getitem_slice, slice_len, slice_start, slice_stop, slice_bound.
  destruct (Z.ltb_spec a 0); [lia|]. destruct (Z.ltb_spec b 0); [lia|].
  rewrite !Z.min_l by lia. rewrite Z.max_r by lia. reflexivity.
Qed.

End Slices.

(** ** The content buffer *)

Section Buffer.

Variables (sequence_length pad : Z) (tokens : Tensor).
Hypothesis Hseq : 0 <= sequence_length + 1.

Let valid_seq_length := Z.min (shape0 tokens) (sequence_length + 1).

Lemma valid_seq_length_bounds :
  0 <= valid_seq_length /\ valid_seq_length <= shape0 tokens
  /\ valid_seq_length <= sequence_length + 1.
Proof. pose proof (shape0_nonneg tokens). unfold valid_seq_length. lia. Qed.

Lemma content_buffer_length :
  length (content_buffer sequence_length pad tokens) = Z.to_nat (sequence_length + 1).
Proof.
  pose proof valid_seq_length_bounds as (H0 & H1 & H2).
  unfold content_buffer; cbv zeta; fold valid_seq_length.
  rewrite length_app, length_take, length_replicate.
  unfold shape0 in H1. lia.
Qed.

Lemma content_buffer_lookup_token (i : nat) :
  (Z.of_nat i < valid_seq_length) ->
  content_buffer sequence_length pad tokens !! i = tokens !! i.
Proof.
  intros Hi. pose proof valid_seq_length_bounds as (H0 & H1 & H2).
  unfold content_buffer; cbv zeta; fold valid_seq_length.
  rewrite lookup_app_l by (rewrite length_take; unfold shape0 in H1; lia).
  apply lookup_take_lt. lia.
Qed.

Lemma content_buffer_lookup_pad (i : nat) :
  valid_seq_length <= Z.of_nat i < sequence_length + 1 ->
  content_buffer sequence_length pad tokens !! i = Some pad.
Proof.
  intros Hi. pose proof valid_seq_length_bounds as (H0 & H1 & H2).
  unfold content_buffer; cbv zeta; fold valid_seq_length.
  rewrite lookup_app_r by (rewrite length_take; unfold shape0 in H1; lia).
  apply lookup_replicate_2. rewrite length_take. unfold shape0 in H1. lia.
Qed.

Lemma content_buffer_take_valid :
  take (Z.to_nat valid_seq_length) (content_buffer sequence_length pad tokens)
  = take (Z.to_nat valid_seq_length) tokens.
Proof.
  pose proof valid_seq_length_bounds as (H0 & H1 & H2).
  unfold content_buffer; cbv zeta; fold valid_seq_length.
  rewrite take_app_le by (rewrite length_take; unfold shape0 in H1; lia).
  rewrite take_take. f_equal. lia.
Qed.

(** What lines 116-123 compute is the content buffer. *)
Lemma full_content :
  full (sequence_length + 1) pad
  = Ret (replicate (Z.to_nat (sequence_length + 1)) pad).
Proof.
  unfold full. destruct (Z.ltb_spec (sequence_length + 1) 0); [lia|reflexivity].
Qed.

Lemma copy_into_content :
  setitem_slice (replicate (Z.to_nat (sequence_length + 1)) pad)
    None (Some valid_seq_length)
    (getitem_slice tokens None (Some valid_seq_length))
  = Ret (content_buffer sequence_length pad tokens).
Proof.
  pose proof valid_seq_length_bounds as (H0 & H1 & H2).
  rewrite getitem_prefix by lia.
  rewrite setitem_prefix.
  - unfold content_buffer; cbv zeta; fold valid_seq_length.
    rewrite drop_replicate. do 3 f_equal. lia.
  - unfold shape0. rewrite length_replicate. lia.
  - rewrite length_take. unfold shape0 in H1. lia.
Qed.

End Buffer.

(** ** [_tokenize_text] *)

Section TokenizeText.

Context {S : Type}.
Implicit Types (self : @BaseLMIterableDataset S) (text : string) (w : World S).

Lemma len_nonneg text : 0 <= Py.len text.
Proof. unfold Py.len. lia. Qed.

(** A text rejected by the character filter: [None], and nothing else
    happened. *)
Lemma tokenize_text_short self text w :
  Py.len (_process_text text) < min_characters_per_text self ->
  _tokenize_text self text w = (Ret None, w).
Proof.
  intros H. unfold _tokenize_text.
  destruct (Z.ltb_spec (Py.len (_process_text text)) (min_characters_per_text self));
    [reflexivity | lia].
Qed.

(** A text that passes the character filter is handed to the
    tokenizer; a failure of the tokenizer propagates. *)
Lemma tokenize_text_tokenizer_raises self text w e s' :
  min_characters_per_text self <= Py.len (_process_text text) ->
  tok_call (tokenizer self) text (tok_state w) = (Raise e, s') ->
  _tokenize_text self text w = (Raise e, after_call w s').
Proof.
  intros Hc Ht. unfold _tokenize_text.
  destruct (Z.ltb_spec (Py.len (_process_text text)) (min_characters_per_text self));
    [lia|].
  unfold bind, call_tokenizer. rewrite Ht. reflexivity.
Qed.

Lemma tokenize_text_few_tokens self text w toks s' :
  min_characters_per_text self <= Py.len (_process_text text) ->
  tok_call (tokenizer self) text (tok_state w) = (Ret toks, s') ->
  shape0 toks < min_tokens_per_text self ->
  _tokenize_text self text w = (Ret None, after_call w s').
Proof.
  intros Hc Ht Hn. unfold _tokenize_text.
  destruct (Z.ltb_spec (Py.len (_process_text text)) (min_characters_per_text self));
    [lia|].
  unfold bind, call_tokenizer. rewrite Ht.
  destruct (Z.ltb_spec (shape0 toks) (min_tokens_per_text self)); [reflexivity | lia].
Qed.

(** A text accepted by both filters is framed from the content
    buffer. *)
Lemma tokenize_text_accepted self text w toks s' :
  min_characters_per_text self <= Py.len (_process_text text) ->
  tok_call (tokenizer self) text (tok_state w) = (Ret toks, s') ->
  min_tokens_per_text self <= shape0 toks ->
  0 <= sequence_length self + 1 ->
  let buffer := content_buffer (sequence_length self) (pad_token_id self) toks in
  _tokenize_text self text w
  = (Ret (Some {[ "samples" := take (Z.to_nat (sequence_length self)) buffer;
                  "targets" := drop 1 buffer ]}),
     after_call w s').
Proof.
  intros Hc Ht Hn Hs buffer. unfold _tokenize_text.
  destruct (Z.ltb_spec (Py.len (_process_text text)) (min_characters_per_text self));
    [lia|].
  unfold bind at 1. unfold call_tokenizer. rewrite Ht.
  destruct (Z.ltb_spec (shape0 toks) (min_tokens_per_text self)); [lia|].
  unfold bind, lift, ret.
  rewrite full_content by assumption.
  rewrite copy_into_content by assumption.
  fold buffer.
  rewrite getitem_all_but_last, getitem_from_1.
  unfold buffer at 1. rewrite content_buffer_length by assumption.
  replace (Z.to_nat (sequence_length self + 1) - 1)%nat
    with (Z.to_nat (sequence_length self)) by lia.
  reflexivity.
Qed.

(** With a sequence length below [-1] an accepted text makes
    [torch.full] raise. *)
Lemma tokenize_text_negative_length self text w toks s' :
  min_characters_per_text self <= Py.len (_process_text text) ->
  tok_call (tokenizer self) text (tok_state w) = (Ret toks, s') ->
  min_tokens_per_text self <= shape0 toks ->
  sequence_length self + 1 < 0 ->
  exists e, _tokenize_text self text w = (Raise e, after_call w s').
Proof.
  intros Hc Ht Hn Hs. unfold _tokenize_text.
  destruct (Z.ltb_spec (Py.len (_process_text text)) (min_characters_per_text self));
    [lia|].
  unfold bind at 1. unfold call_tokenizer. rewrite Ht.
  destruct (Z.ltb_spec (shape0 toks) (min_tokens_per_text self)); [lia|].
  unfold bind, lift, full.
  destruct (Z.ltb_spec (sequence_length self + 1) 0); [|lia].
  eexists. reflexivity.
Qed.

End TokenizeText.

(** ** Samples and targets as windows of one buffer *)

Section Frame.

Variables (buffer : list Z) (n : nat).
Hypothesis Hlen : length buffer = Datatypes.S n.

Lemma frame_lengths :
  length (take n buffer) = n /\ length (drop 1 buffer) = n.
Proof. rewrite length_take, length_drop. lia. Qed.

Lemma frame_shift (i : nat) :
  (i + 1 < n)%nat ->
  drop 1 buffer !! i = take n buffer !! (i + 1)%nat
  /\ is_Some (drop 1 buffer !! i).
Proof.
  intros Hi. rewrite lookup_drop, lookup_take_lt by lia.
  replace (1 + i)%nat with (i + 1)%nat by lia. split; [reflexivity|].
  apply lookup_lt_is_Some. lia.
Qed.

Lemma frame_rebuild :
  (0 < n)%nat ->
  exists x, last (drop 1 buffer) = Some x /\ take n buffer ++ [x] = buffer.
Proof.
  intros Hn.
  assert (Hd : length (drop n buffer) = 1%nat) by (rewrite length_drop; lia).
  destruct (drop n buffer) as [|x [|y tl]] eqn:E; simpl in Hd; try lia.
  exists x. split.
  - rewrite <- (take_drop n buffer) at 1. rewrite E.
    rewrite drop_app_le by (rewrite length_take; lia).
    apply last_snoc.
  - rewrite <- E. apply take_drop.
Qed.

End Frame.

(** ** Claims about [_tokenize_text] *)

(** C1.  For every text accepted by both filters, [_tokenize_text]
    builds a content buffer of exactly [sequence_length + 1] entries
    whose first [valid_seq_length = min(n_tokens, sequence_length + 1)]
    positions hold the first tokens of the tokenized text verbatim and
    whose other positions hold [pad_token_id], and it returns
    [samples = buffer[0 : sequence_length]] and
    [targets = buffer[1 : sequence_length + 1]]. *)
Theorem C1_tokenize_text_frames_content_buffer
    {S : Type} (self : @BaseLMIterableDataset S) (text : string) (w : World S)
    (tokenized_text : Tensor) (s' : S) :
  min_characters_per_text self <= Py.len (_process_text text) ->
  tok_call (tokenizer self) text (tok_state w) = (Ret tokenized_text, s') ->
  min_tokens_per_text self <= shape0 tokenized_text ->
  0 <= sequence_length self ->
  let n_tokens := shape0 tokenized_text in
  let valid_seq_length := Z.min n_tokens (sequence_length self + 1) in
  let buffer :=
    content_buffer (sequence_length self) (pad_token_id self) tokenized_text in
  shape0 buffer = sequence_length self + 1
  /\ (forall i : nat, Z.of_nat i < valid_seq_length ->
       is_Some (tokenized_text !! i) /\ buffer !! i = tokenized_text !! i)
  /\ (forall i : nat, valid_seq_length <= Z.of_nat i < sequence_length self + 1 ->
       buffer !! i = Some (pad_token_id self))
  /\ _tokenize_text self text w
     = (Ret (Some {[ "samples" :=
                       getitem_slice buffer (Some 0) (Some (sequence_length self));
                     "targets" :=
                       getitem_slice buffer (Some 1) (Some (sequence_length self + 1)) ]}),
        after_call w s').
Proof.
  intros Hc Ht Hn Hs n_tokens valid_seq_length buffer.
  assert (Hs1 : 0 <= sequence_length self + 1) by lia.
  assert (Hlen : length buffer = Z.to_nat (sequence_length self + 1))
    by (apply content_buffer_length; assumption).
  split; [unfold shape0; lia|].
  split.
  { intros i Hi. split.
    - apply lookup_lt_is_Some. unfold valid_seq_length, n_tokens, shape0 in Hi. lia.
    - apply content_buffer_lookup_token; assumption. }
  split.
  { intros i Hi. apply content_buffer_lookup_pad; assumption. }
  rewrite (tokenize_text_accepted self text w tokenized_text s') by assumption.
  fold buffer.
  rewrite !getitem_range by (unfold shape0; lia).
  change (Z.to_nat 0) with 0%nat. change (Z.to_nat 1) with 1%nat.
  rewrite drop_0, Z.sub_0_r.
  replace (sequence_length self + 1 - 1) with (sequence_length self) by lia.
  rewrite (take_ge (drop 1 buffer)) by (rewrite length_drop; lia).
  reflexivity.
Qed.

(** The example of the specification: [sequence_length = 4],
    [pad_token_id = 0] and the tokens [7, 8, 9] give the buffer
    [7, 8, 9, 0, 0], the samples [7, 8, 9, 0] and the targets
    [8, 9, 0, 0]. *)
Lemma C1_witness :
  content_buffer 4 0 [7; 8; 9] = [7; 8; 9; 0; 0]
  /\ _tokenize_text (dataset_with (constant_tokenizer [7; 8; 9] 0) (opts_of 4 0 0))
       "any text" {| tok_state := tt; rng_state := random_Random 0 |}
     = (Ret (Some {[ "samples" := [7; 8; 9; 0]; "targets" := [8; 9; 0; 0] ]}),
        {| tok_state := tt; rng_state := random_Random 0 |}).
Proof.
  split; [reflexivity|].
  refine (proj2 (proj2 (proj2
    (C1_tokenize_text_frames_content_buffer
       (dataset_with (constant_tokenizer [7; 8; 9] 0) (opts_of 4 0 0))
       "any text" {| tok_state := tt; rng_state := random_Random 0 |}
       [7; 8; 9] tt _ _ _ _)))).
  - vm_compute. discriminate.
  - reflexivity.
  - vm_compute. discriminate.
  - vm_compute. discriminate.
Defined.

(** C2.  For every accepted text unit, [samples] and [targets] both
    have [sequence_length] entries, [targets[i] = samples[i+1]] for
    every [i] with [0 <= i < sequence_length - 1], and [samples]
    followed by the last entry of [targets] is the content buffer of
    [sequence_length + 1] entries. *)
Theorem C2_targets_are_samples_shifted
    {S : Type} (self : @BaseLMIterableDataset S) (text : string) (w : World S)
    (tokenized_text : Tensor) (s' : S) :
  min_characters_per_text self <= Py.len (_process_text text) ->
  tok_call (tokenizer self) text (tok_state w) = (Ret tokenized_text, s') ->
  min_tokens_per_text self <= shape0 tokenized_text ->
  0 < sequence_length self ->
  exists samples targets : Tensor,
    _tokenize_text self text w
    = (Ret (Some {[ "samples" := samples; "targets" := targets ]}), after_call w s')
    /\ shape0 samples = sequence_length self
    /\ shape0 targets = sequence_length self
    /\ (forall i : nat, Z.of_nat i < sequence_length self - 1 ->
        is_Some (targets !! i) /\ targets !! i = samples !! (i + 1)%nat)
    /\ exists last_target : Z,
        last targets = Some last_target
        /\ samples ++ [last_target]
           = content_buffer (sequence_length self) (pad_token_id self) tokenized_text
        /\ shape0 (samples ++ [last_target]) = sequence_length self + 1.
Proof.
  intros Hc Ht Hn Hs.
  set (buffer := content_buffer (sequence_length self) (pad_token_id self) tokenized_text).
  set (n := Z.to_nat (sequence_length self)).
  assert (Hlen : length buffer = Datatypes.S n).
  { unfold buffer. rewrite content_buffer_length by lia. lia. }
  exists (take n buffer), (drop 1 buffer).
  destruct (frame_lengths buffer n Hlen) as [Hls Hlt].
  split; [apply tokenize_text_accepted; (assumption || lia)|].
  split; [unfold shape0; lia|].
  split; [unfold shape0; lia|].
  split.
  { intros i Hi. destruct (frame_shift buffer n Hlen i) as [E I]; [lia|].
    split; assumption. }
  destruct (frame_rebuild buffer n Hlen) as (x & Hx & Hb); [lia|].
  exists x. repeat split; [assumption | assumption |].
  rewrite Hb. unfold shape0. lia.
Qed.

Lemma C2_witness :
  exists samples targets : Tensor,
    _tokenize_text (dataset_with (constant_tokenizer [7; 8; 9] 0) (opts_of 4 0 0))
      "any text" {| tok_state := tt; rng_state := random_Random 0 |}
    = (Ret (Some {[ "samples" := samples; "targets" := targets ]}),
       {| tok_state := tt; rng_state := random_Random 0 |})
    /\ shape0 samples = 4 /\ shape0 targets = 4.
Proof.
  destruct (C2_targets_are_samples_shifted
              (dataset_with (constant_tokenizer [7; 8; 9] 0) (opts_of 4 0 0))
              "any text" {| tok_state := tt; rng_state := random_Random 0 |}
              [7; 8; 9] tt)
    as (samples & targets & Hrun & Hs & Ht & _).
  - vm_compute. discriminate.
  - reflexivity.
  - vm_compute. discriminate.
  - reflexivity.
  - exists samples, targets. repeat split; assumption.
Defined.

(** C7.  Padding: for an accepted unit with
    [n_tokens < sequence_length + 1] every buffer position at an index
    [>= n_tokens] holds [pad_token_id].  Truncation: for an accepted
    unit with [n_tokens >= sequence_length + 1] the buffer is the first
    [sequence_length + 1] tokens verbatim, without padding.  With
    [sequence_length = 3] the tokens [1, 2, 3, 4, 5] give the samples
    [1, 2, 3] and the targets [2, 3, 4]. *)
Theorem C7_padding_and_truncation
    {S : Type} (self : @BaseLMIterableDataset S) (text : string) (w : World S)
    (tokenized_text : Tensor) (s' : S) :
  min_characters_per_text self <= Py.len (_process_text text) ->
  tok_call (tokenizer self) text (tok_state w) = (Ret tokenized_text, s') ->
  min_tokens_per_text self <= shape0 tokenized_text ->
  0 <= sequence_length self ->
  let n_tokens := shape0 tokenized_text in
  let buffer :=
    content_buffer (sequence_length self) (pad_token_id self) tokenized_text in
  _tokenize_text self text w
  = (Ret (Some {[ "samples" := take (Z.to_nat (sequence_length self)) buffer;
                  "targets" := drop 1 buffer ]}),
     after_call w s')
  /\ (n_tokens < sequence_length self + 1 ->
      forall i : nat, n_tokens <= Z.of_nat i < shape0 buffer ->
        buffer !! i = Some (pad_token_id self))
  /\ (sequence_length self + 1 <= n_tokens ->
      buffer = take (Z.to_nat (sequence_length self + 1)) tokenized_text)
  /\ (let long := dataset_with (constant_tokenizer [1; 2; 3; 4; 5] 0) (opts_of 3 0 0) in
      let w0 := {| tok_state := tt; rng_state := random_Random 0 |} in
      content_buffer 3 0 [1; 2; 3; 4; 5] = [1; 2; 3; 4]
      /\ _tokenize_text long "any text" w0
         = (Ret (Some {[ "samples" := [1; 2; 3]; "targets" := [2; 3; 4] ]}), w0)).
Proof.
  intros Hc Ht Hn Hs n_tokens buffer.
  assert (Hs1 : 0 <= sequence_length self + 1) by lia.
  split; [apply tokenize_text_accepted; assumption|].
  split.
  { intros Hshort i Hi. apply content_buffer_lookup_pad; [assumption|].
    unfold buffer, shape0 in Hi. rewrite content_buffer_length in Hi by assumption.
    fold n_tokens. lia. }
  split.
  { intros Hlong. unfold buffer, content_buffer. fold n_tokens.
    rewrite Z.min_r by lia.
    replace (sequence_length self + 1 - (sequence_length self + 1)) with 0 by lia.
    simpl. apply app_nil_r. }
  split; reflexivity.
Qed.

Lemma C7_witness :
  content_buffer 4 0 [7; 8; 9] !! 3%nat = Some 0
  /\ content_buffer 4 0 [7; 8; 9] !! 4%nat = Some 0.
Proof.
  destruct (C7_padding_and_truncation
              (dataset_with (constant_tokenizer [7; 8; 9] 0) (opts_of 4 0 0))
              "any text" {| tok_state := tt; rng_state := random_Random 0 |}
              [7; 8; 9] tt)
    as (_ & Hpad & _).
  - vm_compute. discriminate.
  - reflexivity.
  - vm_compute. discriminate.
  - vm_compute. discriminate.
  - split; apply Hpad; vm_compute; (reflexivity || (split; (reflexivity || discriminate))).
Defined.

(** C10.  With [min_characters_per_text = 0] and
    [min_tokens_per_text = 0], the defaults, a text that tokenizes to
    zero tokens is accepted, and [samples] and [targets] are both
    [sequence_length] copies of [pad_token_id]. *)
Theorem C10_no_tokens_gives_all_padding
    {S : Type} (self : @BaseLMIterableDataset S) (text : string) (w : World S) (s' : S) :
  min_characters_per_text self = 0 ->
  min_tokens_per_text self = 0 ->
  tok_call (tokenizer self) text (tok_state w) = (Ret [], s') ->
  0 <= sequence_length self ->
  let padding := replicate (Z.to_nat (sequence_length self)) (pad_token_id self) in
  _tokenize_text self text w
  = (Ret (Some {[ "samples" := padding; "targets" := padding ]}), after_call w s').
Proof.
  intros Hc Hn Ht Hs padding.
  rewrite (tokenize_text_accepted self text w [] s');
    [ | rewrite Hc; apply len_nonneg | assumption | rewrite Hn; reflexivity | lia ].
  unfold content_buffer, shape0. simpl length.
  rewrite Z.min_l by lia. simpl.
  rewrite Z.sub_0_r, take_replicate, drop_replicate.
  unfold padding. do 6 f_equal; lia.
Qed.

(** The empty string under the default thresholds, with the tokenizer
    that has one token per character. *)
Lemma C10_witness :
  _tokenize_text (dataset_with char_tokenizer (opts_of 4 0 0)) ""
    {| tok_state := []; rng_state := random_Random 0 |}
  = (Ret (Some {[ "samples" := [0; 0; 0; 0]; "targets" := [0; 0; 0; 0] ]}),
     {| tok_state := [""%string]; rng_state := random_Random 0 |}).
Proof.
  refine (C10_no_tokens_gives_all_padding
            (dataset_with char_tokenizer (opts_of 4 0 0)) ""
            {| tok_state := []; rng_state := random_Random 0 |} [""%string] _ _ _ _).
  - reflexivity.
  - reflexivity.
  - reflexivity.
  - vm_compute. discriminate.
Defined.

(** C3.  [_tokenize_text] returns [None] exactly when the normalized
    text has fewer than [min_characters_per_text] characters or the
    tokenized text has fewer than [min_tokens_per_text] tokens; with
    both thresholds 0 every text is accepted, the empty one included;
    and the character filter is decided on the normalized text before
    the tokenizer is invoked: a text it rejects leaves the tokenizer
    untouched, whatever the tokenizer would have done. *)
Theorem C3_skip_exactly_when_filtered
    {S : Type} (self : @BaseLMIterableDataset S) (text : string) (w : World S) :
  (fst (_tokenize_text self text w) = Ret None
   <-> (Py.len (_process_text text) < min_characters_per_text self
        \/ exists tokenized_text : Tensor,
             fst (tok_call (tokenizer self) text (tok_state w)) = Ret tokenized_text
             /\ shape0 tokenized_text < min_tokens_per_text self))
  /\ (Py.len (_process_text text) < min_characters_per_text self ->
      _tokenize_text self text w = (Ret None, w))
  /\ (min_characters_per_text self = 0 -> min_tokens_per_text self = 0 ->
      0 <= sequence_length self ->
      forall (tokenized_text : Tensor) (s' : S),
        tok_call (tokenizer self) text (tok_state w) = (Ret tokenized_text, s') ->
        exists d, _tokenize_text self text w = (Ret (Some d), after_call w s')).
Proof.
  split; [|split].
  - destruct (Z.lt_ge_cases (Py.len (_process_text text)) (min_characters_per_text self))
      as [Hshort|Hlong].
    { rewrite tokenize_text_short by assumption. simpl. tauto. }
    destruct (tok_call (tokenizer self) text (tok_state w)) as [[toks|e] s'] eqn:Ht.
    + destruct (Z.lt_ge_cases (shape0 toks) (min_tokens_per_text self)) as [Hfew|Hmany].
      * rewrite (tokenize_text_few_tokens self text w toks s') by assumption.
        simpl. split; [intros _|reflexivity]. right. exists toks. split; [reflexivity|lia].
      * split.
        -- intros Hnone. exfalso.
           destruct (Z.lt_ge_cases (sequence_length self + 1) 0) as [Hneg|Hpos].
           ++ destruct (tokenize_text_negative_length self text w toks s')
                as [e He]; try assumption.
              rewrite He in Hnone. discriminate.
           ++ rewrite (tokenize_text_accepted self text w toks s') in Hnone
                by assumption.
              discriminate.
        -- intros [Hshort|(toks' & Heq & Hfew)]; [lia|].
           simpl in Heq. injection Heq as <-. lia.
    + rewrite (tokenize_text_tokenizer_raises self text w e s') by assumption.
      simpl. split; [discriminate|].
      intros [Hshort|(toks' & Heq & _)]; [lia|]. discriminate.
  - apply tokenize_text_short.
  - intros Hc Hn Hs toks s' Ht. eexists.
    apply (tokenize_text_accepted self text w toks s');
      [rewrite Hc; apply len_nonneg | assumption | rewrite Hn; apply shape0_nonneg | lia].
Qed.

(** The text ["Hi."] under a threshold of 10 characters: skipped, and
    the log of the tokenizer's calls stays empty; the empty text under
    thresholds 0: accepted. *)
Lemma C3_witness :
  _tokenize_text (dataset_with char_tokenizer (opts_of 4 0 10)) "Hi."
    {| tok_state := []; rng_state := random_Random 0 |}
  = (Ret None, {| tok_state := []; rng_state := random_Random 0 |})
  /\ exists d,
       _tokenize_text (dataset_with char_tokenizer (opts_of 4 0 0)) ""
         {| tok_state := []; rng_state := random_Random 0 |}
       = (Ret (Some d), {| tok_state := [""%string]; rng_state := random_Random 0 |}).
Proof.
  split.
  - refine (proj1 (proj2 (C3_skip_exactly_when_filtered
              (dataset_with char_tokenizer (opts_of 4 0 10)) "Hi."
              {| tok_state := []; rng_state := random_Random 0 |})) _).
    vm_compute. reflexivity.
  - refine (proj2 (proj2 (C3_skip_exactly_when_filtered
              (dataset_with char_tokenizer (opts_of 4 0 0)) ""
              {| tok_state := []; rng_state := random_Random 0 |})) _ _ _ [] [""%string] _).
    + reflexivity.
    + reflexivity.
    + vm_compute. discriminate.
    + reflexivity.
Defined.

(** ** The shard coordinate *)

Section Shard.

Variables num_processes workers_per_process : Z.

Lemma scaled_rank_range (process_rank worker : Z) :
  0 <= process_rank < num_processes -> 0 <= worker < workers_per_process ->
  0 <= process_rank * workers_per_process + worker
     < num_processes * workers_per_process.
Proof. intros Hr Hw. nia. Qed.

Lemma scaled_rank_injective (rank1 worker1 rank2 worker2 : Z) :
  0 <= worker1 < workers_per_process -> 0 <= worker2 < workers_per_process ->
  rank1 * workers_per_process + worker1 = rank2 * workers_per_process + worker2 ->
  rank1 = rank2 /\ worker1 = worker2.
Proof.
  intros H1 H2 E.
  assert (rank1 = rank2) as -> by nia.
  split; [reflexivity | lia].
Qed.

Lemma scaled_rank_surjective (k : Z) :
  0 <= num_processes -> 0 <= workers_per_process ->
  0 <= k < num_processes * workers_per_process ->
  0 <= k / workers_per_process < num_processes
  /\ 0 <= k mod workers_per_process < workers_per_process
  /\ k / workers_per_process * workers_per_process + k mod workers_per_process = k.
Proof.
  intros HP HW Hk.
  assert (0 < workers_per_process) by nia.
  split; [split|split].
  - apply Z.div_pos; lia.
  - apply Z.div_lt_upper_bound; lia.
  - apply Z.mod_pos_bound; lia.
  - pose proof (Z.div_mod k workers_per_process). lia.
Qed.

End Shard.

(** C4.  For a fixed topology [(num_processes, workers_per_process)],
    the map from the valid pairs [(process_rank, worker_id)] to
    [scaled_rank = process_rank * workers_per_process + worker_id] is a
    bijection onto [0 .. scaled_world_size - 1]: every worker computes
    the same [scaled_world_size = num_processes * workers_per_process]
    and a distinct [scaled_rank] below it, and every number below it is
    the [scaled_rank] of a worker. *)
Theorem C4_scaled_rank_bijection
    {S : Type} (self : @BaseLMIterableDataset S) (num_processes workers_per_process : Z) :
  0 <= num_processes -> 0 <= workers_per_process ->
  let worker process_rank worker_id :=
    on_worker self (topology num_processes workers_per_process process_rank worker_id) in
  let valid process_rank worker_id :=
    0 <= process_rank < num_processes /\ 0 <= worker_id < workers_per_process in
  (forall r i, valid r i ->
     scaled_world_size (worker r i) = num_processes * workers_per_process
     /\ 0 <= scaled_rank (worker r i) < scaled_world_size (worker r i))
  /\ (forall r1 i1 r2 i2, valid r1 i1 -> valid r2 i2 ->
       scaled_rank (worker r1 i1) = scaled_rank (worker r2 i2) ->
       r1 = r2 /\ i1 = i2)
  /\ (forall k, 0 <= k < num_processes * workers_per_process ->
       exists r i, valid r i /\ scaled_rank (worker r i) = k).
Proof.
  intros HP HW worker valid. unfold valid, worker, scaled_rank, scaled_world_size.
  split; [|split]; simpl.
  - intros r i [Hr Hi]. split; [reflexivity|].
    apply scaled_rank_range; assumption.
  - intros r1 i1 r2 i2 [_ Hi1] [_ Hi2] E.
    apply (scaled_rank_injective workers_per_process); assumption.
  - intros k Hk.
    destruct (scaled_rank_surjective num_processes workers_per_process k HP HW Hk)
      as (Hr & Hi & E).
    exists (k / workers_per_process), (k mod workers_per_process).
    repeat split; (lia || assumption).
Qed.

(** The example of the specification: two processes with two workers
    each; the worker 1 of the process 1 has the scaled rank 3 of 4. *)
Lemma C4_witness :
  scaled_rank (on_worker (dataset_with char_tokenizer default_opts) (topology 2 2 1 1)) = 3
  /\ 0 <= 3 < scaled_world_size
              (on_worker (dataset_with char_tokenizer default_opts) (topology 2 2 1 1))
  /\ exists r i, (0 <= r < 2 /\ 0 <= i < 2)
       /\ scaled_rank (on_worker (dataset_with char_tokenizer default_opts)
                         (topology 2 2 r i)) = 2.
Proof.
  destruct (C4_scaled_rank_bijection (dataset_with char_tokenizer default_opts) 2 2)
    as (Hrange & _ & Hsurj).
  - discriminate.
  - discriminate.
  - split; [reflexivity|]. split.
    + apply (Hrange 1 1). split; split; (discriminate || reflexivity).
    + apply (Hsurj 2). split; (discriminate || reflexivity).
Defined.

(** ** [generate_sample] and [__iter__] *)

Section Iteration.

Context {S : Type}.
Variable cls : @LMClass S.
Variable self : @BaseLMIterableDataset S.

(** Once delegating, the iterator is the delegate. *)
Lemma pull_delegating (n : nat) (g : gen_state cls) (w : World S) :
  pull (iter_next cls self) n (Delegating g) w = pull (gen_next cls self) n g w.
Proof.
  revert g w. induction n as [|n IH]; intros g w; [reflexivity|].
  simpl. unfold yield_from, bind, ret.
  destruct (gen_next cls self g w) as [[[x g'|]|e] w']; try reflexivity.
  rewrite IH. reflexivity.
Qed.

(** The first resumption calls [generate_sample] at the shard
    coordinate and starts delegating. *)
Lemma pull_not_started (n : nat) (w : World S) :
  pull (iter_next cls self) (Datatypes.S n) (__iter__ cls self) w
  = match generate_sample cls self (scaled_rank self) (scaled_world_size self) with
    | Ret g => pull (gen_next cls self) (Datatypes.S n) g w
    | Raise e => ([], Failed e, w)
    end.
Proof.
  unfold __iter__.
  destruct (generate_sample cls self (scaled_rank self) (scaled_world_size self))
    as [g|e] eqn:E.
  - rewrite <- pull_delegating. simpl. unfold bind at 1. unfold lift.
    rewrite E. reflexivity.
  - simpl. unfold bind, lift. rewrite E. reflexivity.
Qed.

End Iteration.

(** A subclass that frames every raw unit with the inherited
    [_tokenize_text] yields what the specified driver would yield over
    the same raw units. *)
Lemma framed_matches_specified
    {S : Type} (self : @BaseLMIterableDataset S) (corpus units : list string) :
  forall (n m : nat) (w : World S),
    (length units < n)%nat -> (length units < m)%nat ->
    pull (next_framed self) m units w
    = driver_as_specified (RawTextDataset corpus) self n units w.
Proof.
  induction units as [|text rest IH]; intros n m w Hn Hm.
  - destruct n as [|n], m as [|m]; simpl in *; try lia. reflexivity.
  - destruct n as [|n], m as [|m]; simpl in Hn, Hm; try lia.
    simpl. unfold ret at 1. unfold bind.
    destruct (_tokenize_text self text w) as [[[d|]|e] w'] eqn:E.
    + unfold ret. rewrite (IH n m) by lia. reflexivity.
    + rewrite <- (IH n (Datatypes.S m)) by lia. reflexivity.
    + reflexivity.
Qed.

(** C8.  Called on the base class, [generate_sample] raises
    [NotImplementedError] for every [(scaled_rank, scaled_world_size)]:
    it neither returns a generator nor yields, and so the iterator of
    the base class fails with that error at its first resumption,
    having produced nothing. *)
Theorem C8_generate_sample_not_implemented
    {S : Type} (self : @BaseLMIterableDataset S) (scaled_rank scaled_world_size : Z)
    (n : nat) (w : World S) :
  (exists msg, generate_sample BaseLM self scaled_rank scaled_world_size
               = Raise (NotImplementedError msg))
  /\ (forall g, generate_sample BaseLM self scaled_rank scaled_world_size <> Ret g)
  /\ (exists msg, pull (iter_next BaseLM self) (Datatypes.S n) (__iter__ BaseLM self) w
                  = ([], Failed (NotImplementedError msg), w)).
Proof.
  split; [|split].
  - eexists. reflexivity.
  - intros g. discriminate.
  - eexists. rewrite pull_not_started. reflexivity.
Qed.

(** C5 as stated fails: over a subclass that yields the raw text unit
    ["Hi there"], the iterator yields that very unit, where the
    specified driver would yield its framed pair. *)
Lemma C5_counterexample :
  generate_sample (RawTextDataset one_unit_corpus) one_unit_dataset
    (scaled_rank one_unit_dataset) (scaled_world_size one_unit_dataset)
  = Ret one_unit_corpus
  /\ pull (iter_next (RawTextDataset one_unit_corpus) one_unit_dataset) 2
       (__iter__ (RawTextDataset one_unit_corpus) one_unit_dataset) one_unit_world
     = ([PyStr "Hi there"], Exhausted, one_unit_world)
  /\ driver_as_specified (RawTextDataset one_unit_corpus) one_unit_dataset 2
       one_unit_corpus one_unit_world
     = ([PyDict {[ "samples" := [72; 105; 32; 116]; "targets" := [105; 32; 116; 104] ]}],
        Exhausted, after_call one_unit_world ["Hi there"%string])
  /\ pull (iter_next (RawTextDataset one_unit_corpus) one_unit_dataset) 2
       (__iter__ (RawTextDataset one_unit_corpus) one_unit_dataset) one_unit_world
     <> driver_as_specified (RawTextDataset one_unit_corpus) one_unit_dataset 2
          one_unit_corpus one_unit_world.
Proof.
  split; [reflexivity|]. split; [reflexivity|]. split; [reflexivity|].
  intros E. vm_compute in E. discriminate E.
Qed.

(** C5, amended.  On each request for a fresh iterator nothing runs
    yet; the first resumption computes the shard coordinate and calls
    the subclass [generate_sample] with it, and from then on the
    iterator yields exactly what that generator yields, in order and
    unchanged, ends when it ends and fails when it fails.  The driver
    applies no filter and no framing of its own: those are the
    subclass's to apply, with the inherited [_tokenize_text], and over
    a subclass that applies it to every raw unit of its shard the
    iterator is the filter-and-frame composition over those units. *)
Theorem C5_iter_delegates_to_generate_sample
    {S : Type} (cls : @LMClass S) (self : @BaseLMIterableDataset S)
    (n : nat) (w : World S) :
  pull (iter_next cls self) 0 (__iter__ cls self) w = ([], Suspended, w)
  /\ pull (iter_next cls self) (Datatypes.S n) (__iter__ cls self) w
     = match generate_sample cls self
               (rank self * num_workers self + worker_id self)
               (world_size self * num_workers self) with
       | Ret g => pull (gen_next cls self) (Datatypes.S n) g w
       | Raise e => ([], Failed e, w)
       end
  /\ (forall corpus : list string,
        let shard :=
          shard_of corpus 0 (scaled_rank self) (scaled_world_size self) in
        scaled_world_size self <> 0 -> (length shard <= n)%nat ->
        pull (iter_next (FramedDataset corpus) self) (Datatypes.S n)
          (__iter__ (FramedDataset corpus) self) w
        = driver_as_specified (RawTextDataset shard) self (Datatypes.S n) shard w).
Proof.
  split; [reflexivity|]. split; [apply pull_not_started|].
  intros corpus shard Hws Hn. rewrite pull_not_started. simpl generate_sample.
  destruct (Z.eqb_spec (scaled_world_size self) 0) as [E|_]; [contradiction|].
  apply framed_matches_specified; fold shard; lia.
Qed.

(** Four units read by the second of two workers, with a threshold of
    five characters: the worker's shard is the units at the odd
    positions, of which ["Hi."] is skipped. *)
Lemma C5_witness :
  pull (iter_next (FramedDataset ["zero zero"; "Hi."; "two two"; "three"]%string)
          (__init__ (fun _ => char_tokenizer) (topology 1 2 0 1) (opts_of 4 0 5)))
       3
       (__iter__ (FramedDataset ["zero zero"; "Hi."; "two two"; "three"]%string)
          (__init__ (fun _ => char_tokenizer) (topology 1 2 0 1) (opts_of 4 0 5)))
       {| tok_state := []; rng_state := random_Random 0 |}
  = ([PyDict {[ "samples" := [116; 104; 114; 101]; "targets" := [104; 114; 101; 101] ]}],
     Exhausted,
     {| tok_state := ["three"%string]; rng_state := random_Random 0 |}).
Proof.
  destruct (C5_iter_delegates_to_generate_sample
              (FramedDataset ["zero zero"; "Hi."; "two two"; "three"]%string)
              (__init__ (fun _ => char_tokenizer) (topology 1 2 0 1) (opts_of 4 0 5))
              2 {| tok_state := []; rng_state := random_Random 0 |})
    as (_ & _ & Hframed).
  rewrite (Hframed ["zero zero"; "Hi."; "two two"; "three"]%string).
  - reflexivity.
  - discriminate.
  - vm_compute. lia.
Defined.

(** ** The random seed *)

Section Seed.

Context {S : Type}.
Implicit Types (self : @BaseLMIterableDataset S) (text : string) (w : World S).

(** [_tokenize_text] reads four attributes of the instance and the
    tokenizer's state, and nothing else. *)
Lemma tokenize_text_reads self1 self2 text w :
  min_characters_per_text self1 = min_characters_per_text self2 ->
  min_tokens_per_text self1 = min_tokens_per_text self2 ->
  sequence_length self1 = sequence_length self2 ->
  tokenizer self1 = tokenizer self2 ->
  _tokenize_text self1 text w = _tokenize_text self2 text w.
Proof.
  intros Hc Hn Hs Ht. unfold _tokenize_text, pad_token_id.
  rewrite Hc, Hn, Hs, Ht. reflexivity.
Qed.

(** It neither reads nor changes the state of the random generator. *)
Lemma tokenize_text_ignores_rng self text w (r : Random) :
  _tokenize_text self text {| tok_state := tok_state w; rng_state := r |}
  = (fst (_tokenize_text self text w),
     {| tok_state := tok_state (snd (_tokenize_text self text w)); rng_state := r |}).
Proof.
  unfold _tokenize_text.
  destruct (Py.len (_process_text text) <? min_characters_per_text self);
    [reflexivity|].
  unfold bind, call_tokenizer, lift, ret. simpl.
  destruct (tok_call (tokenizer self) text (tok_state w)) as [[toks|e] s'];
    [|reflexivity].
  destruct (shape0 toks <? min_tokens_per_text self); [reflexivity|].
  destruct (full (sequence_length self + 1) (pad_token_id self)) as [content|e];
    [|reflexivity].
  destruct (setitem_slice content None
              (Some (Z.min (shape0 toks) (sequence_length self + 1)))
              (getitem_slice toks None
                 (Some (Z.min (shape0 toks) (sequence_length self + 1)))));
    reflexivity.
Qed.

Lemma tokenize_text_keeps_rng self text w :
  rng_state (snd (_tokenize_text self text w)) = rng_state w.
Proof.
  destruct w as [s r].
  pose proof (tokenize_text_ignores_rng self text
                {| tok_state := s; rng_state := r |} r) as H.
  simpl in H. apply (f_equal snd) in H. simpl in H. rewrite H. reflexivity.
Qed.

End Seed.

(** C9.  Two instances whose configurations differ only in
    [random_seed] (and whose tokenizers, built from those
    configurations, are the same): [_tokenize_text] returns the same
    result on every text and leaves the tokenizer in the same state,
    and [__iter__] computes the same shard coordinate.  The private
    generator is built from the seed when the instance is created, and
    neither [_tokenize_text] nor the iteration of the base class draws
    from it or reads it. *)
Theorem C9_random_seed_noninterference
    {S : Type} (build_tokenizer : Namespace -> Tokenizer S)
    (base : BaseIterableDataset) (o : Namespace) (seed1 seed2 : Z) :
  build_tokenizer (with_random_seed o seed1) = build_tokenizer (with_random_seed o seed2) ->
  let self1 := __init__ build_tokenizer base (with_random_seed o seed1) in
  let self2 := __init__ build_tokenizer base (with_random_seed o seed2) in
  (_rng self1 = random_Random seed1 /\ _rng self2 = random_Random seed2)
  /\ (forall (text : string) (w1 w2 : World S),
        tok_state w1 = tok_state w2 ->
        fst (_tokenize_text self1 text w1) = fst (_tokenize_text self2 text w2)
        /\ tok_state (snd (_tokenize_text self1 text w1))
           = tok_state (snd (_tokenize_text self2 text w2))
        /\ rng_state (snd (_tokenize_text self1 text w1)) = rng_state w1
        /\ rng_state (snd (_tokenize_text self2 text w2)) = rng_state w2)
  /\ (scaled_rank self1, scaled_world_size self1)
     = (scaled_rank self2, scaled_world_size self2)
  /\ (forall (n : nat) (w : World S),
        pull (iter_next BaseLM self1) n (__iter__ BaseLM self1) w
        = pull (iter_next BaseLM self2) n (__iter__ BaseLM self2) w
        /\ snd (pull (iter_next BaseLM self1) n (__iter__ BaseLM self1) w) = w).
Proof.
  intros Htok self1 self2.
  split; [split; reflexivity|].
  split.
  { intros text [s r1] [s2 r2] Hs. simpl in Hs. subst s2.
    rewrite (tokenize_text_reads self1 self2 text) by (simpl; trivial).
    pose proof (tokenize_text_ignores_rng self2 text
                  {| tok_state := s; rng_state := r1 |} r2) as H.
    simpl in H. rewrite H. simpl. repeat split.
    apply (tokenize_text_keeps_rng self2 text {| tok_state := s; rng_state := r1 |}). }
  split; [reflexivity|].
  intros [|n] w; [split; reflexivity|].
  rewrite !pull_not_started. split; reflexivity.
Qed.

Lemma C9_witness :
  fst (_tokenize_text
         (__init__ (fun _ => char_tokenizer) (topology 2 2 1 1)
            (with_random_seed (opts_of 4 0 0) 1))
         "Hi there" {| tok_state := []; rng_state := random_Random 1 |})
  = fst (_tokenize_text
           (__init__ (fun _ => char_tokenizer) (topology 2 2 1 1)
              (with_random_seed (opts_of 4 0 0) 2))
           "Hi there" {| tok_state := []; rng_state := random_Random 2 |}).
Proof.
  destruct (C9_random_seed_noninterference (fun _ => char_tokenizer)
              (topology 2 2 1 1) (opts_of 4 0 0) 1 2 eq_refl)
    as (_ & Hrun & _).
  destruct (Hrun "Hi there"%string
              {| tok_state := []; rng_state := random_Random 1 |}
              {| tok_state := []; rng_state := random_Random 2 |} eq_refl)
    as (Hres & _).
  exact Hres.
Defined.

(** ** The text normalizer *)

Section Normalizer.

Import Py.

Lemma isspace_space : isspace " " = true.
Proof. reflexivity. Qed.

(** Trimming on the left commutes with collapsing the runs. *)
Lemma lstrip_sub_in_run (s : string) :
  lstrip (sub_ws_runs true s) = sub_ws_runs false (lstrip s).
Proof.
  induction s as [|c s IH]; [reflexivity|].
  simpl. destruct (isspace c) eqn:Ec; [exact IH|].
  simpl. rewrite Ec. reflexivity.
Qed.

Lemma lstrip_sub (s : string) :
  lstrip (sub_ws_runs false s) = sub_ws_runs false (lstrip s).
Proof.
  destruct s as [|c s]; [reflexivity|].
  simpl. destruct (isspace c) eqn:Ec.
  - simpl. apply lstrip_sub_in_run.
  - simpl. rewrite Ec. reflexivity.
Qed.

(** A text that is not empty after trimming on the right keeps
    something when its runs are collapsed. *)
Lemma sub_rstrip_is_empty (b : bool) (s : string) :
  str_is_empty (sub_ws_runs b (rstrip s)) = str_is_empty (rstrip s).
Proof.
  revert b. induction s as [|c s IH]; intros b; [reflexivity|].
  simpl. destruct (isspace c) eqn:Ec; simpl.
  - destruct (str_is_empty (rstrip s)) eqn:Er; [reflexivity|].
    simpl. rewrite Ec. destruct b; [|reflexivity].
    apply IH.
  - rewrite Ec. reflexivity.
Qed.

(** Trimming on the right commutes with collapsing the runs. *)
Lemma rstrip_sub (b : bool) (s : string) :
  rstrip (sub_ws_runs b s) = sub_ws_runs b (rstrip s).
Proof.
  revert b. induction s as [|c s IH]; intros b; [reflexivity|].
  simpl. destruct (isspace c) eqn:Ec; simpl.
  - destruct (str_is_empty (rstrip s)) eqn:Er.
    + destruct b.
      * rewrite IH. destruct (rstrip s); [reflexivity|discriminate].
      * simpl. rewrite IH, sub_rstrip_is_empty, Er. reflexivity.
    + simpl. rewrite Ec. destruct b.
      * apply IH.
      * simpl. rewrite IH, sub_rstrip_is_empty, Er. reflexivity.
  - rewrite Ec. rewrite IH. reflexivity.
Qed.

Lemma strip_sub (s : string) : strip (re_sub_ws s) = re_sub_ws (strip s).
Proof. unfold strip, re_sub_ws. rewrite lstrip_sub. apply rstrip_sub. Qed.

(** The characters of the results come from the argument, except for
    the space that replaces a run. *)
Lemma translate_delete_removes (deletechars s : string) (c : ascii) :
  str_contains deletechars c = true ->
  str_contains (translate_delete deletechars s) c = false.
Proof.
  intros Hc. induction s as [|d s IH]; [reflexivity|].
  simpl. destruct (str_contains deletechars d) eqn:Ed; [exact IH|].
  simpl. rewrite IH, orb_false_r.
  destruct (Ascii.eqb_spec d c) as [->|]; [congruence|reflexivity].
Qed.

Lemma lstrip_contains (s : string) (c : ascii) :
  str_contains s c = false -> str_contains (lstrip s) c = false.
Proof.
  induction s as [|d s IH]; [reflexivity|].
  simpl. intros [Hd Hs]%orb_false_elim.
  destruct (isspace d); [auto|]. simpl. rewrite Hd, Hs. reflexivity.
Qed.

Lemma rstrip_contains (s : string) (c : ascii) :
  str_contains s c = false -> str_contains (rstrip s) c = false.
Proof.
  induction s as [|d s IH]; [reflexivity|].
  simpl. intros [Hd Hs]%orb_false_elim.
  destruct (isspace d && str_is_empty (rstrip s)); [reflexivity|].
  simpl. rewrite Hd, IH by assumption. reflexivity.
Qed.

Lemma sub_ws_runs_contains (b : bool) (s : string) (c : ascii) :
  isspace c = false ->
  str_contains s c = false -> str_contains (sub_ws_runs b s) c = false.
Proof.
  intros Hc. revert b. induction s as [|d s IH]; intros b; [reflexivity|].
  simpl. intros [Hd Hs]%orb_false_elim.
  destruct (isspace d).
  - destruct b; [auto|].
    change (str_contains (String " " (sub_ws_runs true s)) c)
      with (Ascii.eqb " " c || str_contains (sub_ws_runs true s) c).
    rewrite IH, orb_false_r by assumption.
    apply Ascii.eqb_neq. intros <-. discriminate Hc.
  - simpl. rewrite Hd, IH by assumption. reflexivity.
Qed.

Lemma translate_delete_contains (deletechars s : string) (c : ascii) :
  str_contains s c = false ->
  str_contains (translate_delete deletechars s) c = false.
Proof.
  induction s as [|d s IH]; [reflexivity|].
  simpl. intros [Hd Hs]%orb_false_elim.
  destruct (str_contains deletechars d); [auto|].
  simpl. rewrite Hd, IH by assumption. reflexivity.
Qed.

(** Lower-casing leaves no upper-case character. *)
Lemma lower_char_not_upper (d : ascii) : isupper (lower_char d) = false.
Proof. destruct d as [[] [] [] [] [] [] [] []]; reflexivity. Qed.

Lemma upper_not_space (c : ascii) : isupper c = true -> isspace c = false.
Proof. destruct c as [[] [] [] [] [] [] [] []]; vm_compute; congruence. Qed.

Lemma lower_no_upper (s : string) (c : ascii) :
  isupper c = true -> str_contains (lower s) c = false.
Proof.
  intros Hc. induction s as [|d s IH]; [reflexivity|].
  simpl. rewrite IH, orb_false_r.
  apply Ascii.eqb_neq. intros E.
  pose proof (lower_char_not_upper d) as Hd. rewrite E in Hd. congruence.
Qed.

Lemma process_text_no_upper (text : string) (c : ascii) :
  isupper c = true -> str_contains (_process_text text) c = false.
Proof.
  intros Hc. unfold _process_text, re_sub_ws, strip.
  apply sub_ws_runs_contains; [apply upper_not_space; assumption|].
  apply rstrip_contains, lstrip_contains, translate_delete_contains, lower_no_upper.
  assumption.
Qed.

Lemma punctuation_not_space (c : ascii) :
  str_contains punctuation c = true -> isspace c = false.
Proof.
  destruct c as [[] [] [] [] [] [] [] []]; vm_compute; congruence.
Qed.

Lemma process_text_no_punctuation (text : string) (c : ascii) :
  str_contains punctuation c = true ->
  str_contains (_process_text text) c = false.
Proof.
  intros Hc. unfold _process_text, re_sub_ws, strip.
  apply sub_ws_runs_contains; [apply punctuation_not_space; assumption|].
  apply rstrip_contains, lstrip_contains, translate_delete_removes. assumption.
Qed.

End Normalizer.



(** * Further properties of the code *)

(** ** The normal form computed by [_process_text] *)

Section NormalForm.

Import Py.

Lemma str_contains_head (c : ascii) (s : string) : str_contains (String c s) c = true.
Proof. simpl. rewrite Ascii.eqb_refl. reflexivity. Qed.

Lemma str_contains_tail (c d : ascii) (s : string) :
  str_contains s c = true -> str_contains (String d s) c = true.
Proof. intros H. simpl. rewrite H. apply orb_true_r. Qed.

(** Lower-casing and deleting do nothing where there is nothing to
    lower-case or to delete. *)
Lemma lower_fixed (s : string) :
  (forall c, isupper c = true -> str_contains s c = false) -> lower s = s.
Proof.
  induction s as [|c s IH]; intros H; [reflexivity|].
  simpl. rewrite IH.
  - unfold lower_char. destruct (isupper c) eqn:Ec; [|reflexivity].
    specialize (H c Ec). rewrite str_contains_head in H. discriminate.
  - intros d Hd. specialize (H d Hd). simpl in H.
    apply orb_false_elim in H. tauto.
Qed.

Lemma translate_delete_fixed (deletechars s : string) :
  (forall c, str_contains deletechars c = true -> str_contains s c = false) ->
  translate_delete deletechars s = s.
Proof.
  induction s as [|c s IH]; intros H; [reflexivity|].
  simpl. destruct (str_contains deletechars c) eqn:Ec.
  - specialize (H c Ec). rewrite str_contains_head in H. discriminate.
  - rewrite IH; [reflexivity|].
    intros d Hd. specialize (H d Hd). simpl in H.
    apply orb_false_elim in H. tauto.
Qed.

(** Trimming twice is trimming once. *)
Lemma lstrip_idem (s : string) : lstrip (lstrip s) = lstrip s.
Proof.
  induction s as [|c s IH]; [reflexivity|].
  simpl. destruct (isspace c) eqn:Ec; [exact IH|]. simpl. rewrite Ec. reflexivity.
Qed.

Lemma rstrip_idem (s : string) : rstrip (rstrip s) = rstrip s.
Proof.
  induction s as [|c s IH]; [reflexivity|].
  simpl. destruct (isspace c && str_is_empty (rstrip s)) eqn:E; [reflexivity|].
  simpl. rewrite IH, E. reflexivity.
Qed.

Lemma lstrip_rstrip (s : string) : lstrip (rstrip s) = rstrip (lstrip s).
Proof.
  induction s as [|c s IH]; [reflexivity|].
  simpl. destruct (isspace c) eqn:Ec; simpl.
  - destruct (str_is_empty (rstrip s)) eqn:Er.
    + rewrite <- IH. destruct (rstrip s); [reflexivity|discriminate].
    + simpl. rewrite Ec. exact IH.
  - rewrite ?Ec. simpl. rewrite ?Ec. reflexivity.
Qed.

Lemma strip_idem (s : string) : strip (strip s) = strip s.
Proof.
  unfold strip. rewrite lstrip_rstrip, lstrip_idem, rstrip_idem. reflexivity.
Qed.

(** Collapsing twice is collapsing once. *)
Lemma sub_ws_runs_idem (s : string) :
  sub_ws_runs true (sub_ws_runs true s) = sub_ws_runs true s
  /\ sub_ws_runs false (sub_ws_runs true s) = sub_ws_runs true s
  /\ sub_ws_runs false (sub_ws_runs false s) = sub_ws_runs false s.
Proof.
  induction s as [|c s (IH1 & IH2 & IH3)]; [repeat split|].
  simpl. destruct (isspace c) eqn:Ec.
  - repeat split; try assumption.
    simpl. rewrite IH1. reflexivity.
  - simpl. rewrite Ec, IH3. repeat split.
Qed.

Lemma re_sub_ws_idem (s : string) : re_sub_ws (re_sub_ws s) = re_sub_ws s.
Proof. apply sub_ws_runs_idem. Qed.

(** Each step of the normalizer leaves its result alone. *)
Lemma process_text_lower (text : string) :
  lower (_process_text text) = _process_text text.
Proof. apply lower_fixed. intros c Hc. apply process_text_no_upper, Hc. Qed.

Lemma process_text_translate (text : string) :
  translate_delete punctuation (_process_text text) = _process_text text.
Proof.
  apply translate_delete_fixed. intros c Hc. apply process_text_no_punctuation, Hc.
Qed.

Lemma process_text_strip (text : string) :
  strip (_process_text text) = _process_text text.
Proof. unfold _process_text. rewrite strip_sub, strip_idem. reflexivity. Qed.

Lemma process_text_re_sub (text : string) :
  re_sub_ws (_process_text text) = _process_text text.
Proof. unfold _process_text. apply re_sub_ws_idem. Qed.

End NormalForm.

(** X1.  The result of [_process_text] is a normal form: lower-casing
    it, deleting the punctuation from it, trimming it or collapsing its
    whitespace changes nothing, and so normalizing twice is normalizing
    once. *)
Theorem X1_process_text_idempotent (text : string) :
  Py.lower (_process_text text) = _process_text text
  /\ Py.translate_delete Py.punctuation (_process_text text) = _process_text text
  /\ Py.strip (_process_text text) = _process_text text
  /\ Py.re_sub_ws (_process_text text) = _process_text text
  /\ _process_text (_process_text text) = _process_text text.
Proof.
  split; [apply process_text_lower|].
  split; [apply process_text_translate|].
  split; [apply process_text_strip|].
  split; [apply process_text_re_sub|].
  unfold _process_text at 1.
  rewrite process_text_lower, process_text_translate, process_text_strip.
  apply process_text_re_sub.
Qed.

(** ** Lengths and the shape of the normalized text *)

Section NormalizedShape.

Import Py.



Lemma lstrip_length (s : string) : (String.length (lstrip s) <= String.length s)%nat.
Proof.
  induction s as [|c s IH]; simpl; [lia|]. destruct (isspace c); simpl; lia.
Qed.


Lemma sub_ws_runs_length (b : bool) (s : string) :
  (String.length (sub_ws_runs b s) <= String.length s)%nat.
Proof.
  revert b. induction s as [|c s IH]; intros b; simpl; [lia|].
  pose proof (IH true). pose proof (IH false).
  destruct (isspace c); [destruct b|]; simpl; lia.
Qed.


(** A text that trimming leaves alone begins and ends with something
    that is not whitespace. *)
Lemma strip_fixed_parts (s : string) : strip s = s -> lstrip s = s /\ rstrip s = s.
Proof.
  intros H. split.
  - rewrite <- H at 1. unfold strip.
    rewrite <- lstrip_rstrip, lstrip_idem, lstrip_rstrip. exact H.
  - rewrite <- H at 1. unfold strip. rewrite rstrip_idem. exact H.
Qed.

Lemma lstrip_fixed_first (s : string) (c : ascii) :
  lstrip s = s -> String.get 0 s = Some c -> isspace c = false.
Proof.
  destruct s as [|d s]; simpl; [discriminate|].
  intros H [= ->]. destruct (isspace c) eqn:Ec; [|reflexivity].
  pose proof (lstrip_length s) as Hl. rewrite H in Hl. simpl in Hl. lia.
Qed.

Lemma rstrip_fixed_last (s : string) (c : ascii) :
  rstrip s = s -> String.get (String.length s - 1) s = Some c -> isspace c = false.
Proof.
  induction s as [|d s IH]; [discriminate|].
  simpl rstrip. destruct (isspace d && str_is_empty (rstrip s)) eqn:E; [discriminate|].
  intros [= Hr]. destruct s as [|e s].
  - simpl. intros [= ->]. simpl in E. rewrite andb_true_r in E. exact E.
  - intros Hg. apply IH; [exact Hr|].
    simpl String.length in *. replace (Datatypes.S (Datatypes.S (String.length s)) - 1)%nat
      with (Datatypes.S (String.length s)) in Hg by lia.
    simpl in Hg. replace (Datatypes.S (String.length s) - 1)%nat
      with (String.length s) by lia.
    destruct (String.length s); exact Hg.
Qed.

(** In a text that collapsing leaves alone every whitespace character
    is a space and is followed by something that is not whitespace. *)
Lemma sub_ws_runs_fixed (b : bool) (s : string) :
  sub_ws_runs b s = s ->
  (b = true -> forall c, String.get 0 s = Some c -> isspace c = false)
  /\ (forall (i : nat) (c : ascii),
        String.get i s = Some c -> isspace c = true ->
        c = " "%char
        /\ forall d, String.get (Datatypes.S i) s = Some d -> isspace d = false).
Proof.
  revert b. induction s as [|c s IH]; intros b H.
  { split; [intros _ c; discriminate | intros i c; destruct i; discriminate]. }
  simpl in H. destruct (isspace c) eqn:Ec.
  - destruct b.
    { pose proof (sub_ws_runs_length true s) as Hl. rewrite H in Hl. simpl in Hl. lia. }
    injection H as Hc Hs. destruct (IH true Hs) as [Hfirst Hrest].
    split; [discriminate|].
    intros [|i] x Hx Hsp; simpl in Hx.
    + injection Hx as <-. split; [congruence|].
      intros d Hd. simpl in Hd. apply Hfirst; [reflexivity | exact Hd].
    + destruct (Hrest i x Hx Hsp) as [E Hn]. split; [exact E|].
      intros d Hd. apply Hn. exact Hd.
  - injection H as Hs. destruct (IH false Hs) as [_ Hrest].
    split.
    + intros _ x [= <-]. exact Ec.
    + intros [|i] x Hx Hsp; simpl in Hx.
      * injection Hx as <-. congruence.
      * destruct (Hrest i x Hx Hsp) as [E Hn]. split; [exact E|].
        intros d Hd. apply Hn. exact Hd.
Qed.

End NormalizedShape.



(** X3.  The normalized text neither begins nor ends with whitespace,
    its only whitespace character is the space, and no two spaces are
    adjacent. *)
Theorem X3_process_text_whitespace (text : string) :
  (forall c, String.get 0 (_process_text text) = Some c -> Py.isspace c = false)
  /\ (forall c,
        String.get (String.length (_process_text text) - 1) (_process_text text) = Some c ->
        Py.isspace c = false)
  /\ (forall (i : nat) (c : ascii),
        String.get i (_process_text text) = Some c -> Py.isspace c = true ->
        c = " "%char
        /\ forall d, String.get (Datatypes.S i) (_process_text text) = Some d ->
                     Py.isspace d = false).
Proof.
  destruct (strip_fixed_parts _ (process_text_strip text)) as [Hl Hr].
  split; [intros c; apply lstrip_fixed_first, Hl|].
  split; [intros c; apply rstrip_fixed_last, Hr|].
  apply (sub_ws_runs_fixed false), process_text_re_sub.
Qed.

Lemma X3_witness :
  String.get 0 (_process_text "  Hello,   World!  ") = Some "h"%char
  /\ String.get 5 (_process_text "  Hello,   World!  ") = Some " "%char
  /\ forall d, String.get 6 (_process_text "  Hello,   World!  ") = Some d ->
               Py.isspace d = false.
Proof.
  split; [reflexivity|]. split; [reflexivity|].
  destruct (X3_process_text_whitespace "  Hello,   World!  ") as (_ & _ & H).
  apply (H 5%nat " "%char); reflexivity.
Defined.

(** ** The texts that normalize to nothing *)

Section EmptyNormalForm.

Import Py.

Lemma contains_cons (P : ascii -> Prop) (d : ascii) (s : string) :
  (forall c, str_contains (String d s) c = true -> P c)
  <-> P d /\ (forall c, str_contains s c = true -> P c).
Proof.
  split.
  - intros H. split; [apply H, str_contains_head|].
    intros c Hc. apply H, str_contains_tail, Hc.
  - intros [Hd Hs] c Hc. simpl in Hc. apply orb_true_iff in Hc as [Hc|Hc].
    + apply Ascii.eqb_eq in Hc. subst. exact Hd.
    + apply Hs, Hc.
Qed.

Lemma lstrip_empty (s : string) :
  lstrip s = EmptyString <-> (forall c, str_contains s c = true -> isspace c = true).
Proof.
  induction s as [|d s IH]; [split; [intros _ c; discriminate | reflexivity]|].
  rewrite contains_cons. simpl. destruct (isspace d) eqn:Ed.
  - rewrite IH. tauto.
  - split; [discriminate | intros [? _]; discriminate].
Qed.

Lemma rstrip_empty (s : string) :
  rstrip s = EmptyString <-> (forall c, str_contains s c = true -> isspace c = true).
Proof.
  induction s as [|d s IH]; [split; [intros _ c; discriminate | reflexivity]|].
  rewrite contains_cons, <- IH. simpl.
  destruct (isspace d) eqn:Ed; simpl.
  - destruct (rstrip s); simpl; split; try discriminate; try tauto.
    intros [_ ?]; discriminate.
  - split; [discriminate | intros [? _]; discriminate].
Qed.

Lemma strip_empty (s : string) :
  strip s = EmptyString <-> (forall c, str_contains s c = true -> isspace c = true).
Proof.
  unfold strip. rewrite <- lstrip_rstrip. rewrite <- rstrip_empty.
  split.
  - intros H. destruct (rstrip s) as [|d r] eqn:E; [reflexivity|].
    exfalso. pose proof (proj1 (lstrip_empty _) H) as Hsp.
    pose proof (proj2 (rstrip_empty _) Hsp) as Hr.
    rewrite <- E, rstrip_idem, E in Hr. discriminate.
  - intros ->. reflexivity.
Qed.

Lemma re_sub_ws_empty (s : string) : re_sub_ws s = EmptyString <-> s = EmptyString.
Proof.
  unfold re_sub_ws. destruct s as [|c s]; [tauto|].
  simpl. destruct (isspace c); split; discriminate.
Qed.

(** Lower-casing turns no character into, or away from, whitespace or
    punctuation. *)
Lemma lower_char_class (c : ascii) :
  isspace (lower_char c) = isspace c
  /\ str_contains punctuation (lower_char c) = str_contains punctuation c.
Proof. destruct c as [[] [] [] [] [] [] [] []]; split; reflexivity. Qed.

Lemma unpunctuated_all_space (s : string) :
  (forall c, str_contains (translate_delete punctuation (lower s)) c = true ->
             isspace c = true)
  <-> (forall c, str_contains s c = true ->
                 isspace c = true \/ str_contains punctuation c = true).
Proof.
  induction s as [|d s IH]; [split; intros _ c; discriminate|].
  rewrite contains_cons, <- IH.
  change (translate_delete punctuation (lower (String d s)))
    with (if str_contains punctuation (lower_char d)
          then translate_delete punctuation (lower s)
          else String (lower_char d) (translate_delete punctuation (lower s))).
  destruct (lower_char_class d) as [Hsp Hpu].
  destruct (str_contains punctuation (lower_char d)) eqn:Ed.
  - rewrite <- Hpu. tauto.
  - rewrite contains_cons, Hsp, <- Hpu.
    split; [tauto|]. intros [[?|?] ?]; [tauto|discriminate].
Qed.

End EmptyNormalForm.

(** X4.  The texts that [_process_text] maps to the empty text are
    exactly those made of whitespace and punctuation only; such a text
    is skipped as soon as [min_characters_per_text] is positive. *)
Theorem X4_process_text_empty_iff
    {S : Type} (self : @BaseLMIterableDataset S) (text : string) (w : World S) :
  (_process_text text = EmptyString
   <-> forall c, Py.str_contains text c = true ->
         Py.isspace c = true \/ Py.str_contains Py.punctuation c = true)
  /\ (_process_text text = EmptyString -> 0 < min_characters_per_text self ->
      _tokenize_text self text w = (Ret None, w)).
Proof.
  split.
  - unfold _process_text.
    rewrite re_sub_ws_empty, strip_empty. apply unpunctuated_all_space.
  - intros He Hmin. apply tokenize_text_short. rewrite He. exact Hmin.
Qed.

Lemma X4_witness :
  _process_text " ... ?! -- " = EmptyString
  /\ _tokenize_text (dataset_with char_tokenizer (opts_of 4 0 1)) " ... ?! -- "
       {| tok_state := []; rng_state := random_Random 0 |}
     = (Ret None, {| tok_state := []; rng_state := random_Random 0 |}).
Proof.
  split; [reflexivity|].
  apply (X4_process_text_empty_iff
           (dataset_with char_tokenizer (opts_of 4 0 1)) " ... ?! -- ");
    reflexivity.
Defined.

(** ** More on [_tokenize_text] *)

Section Framing.

Context {S : Type}.
Implicit Types (self : @BaseLMIterableDataset S) (text : string) (w : World S).

(** The content buffer is made of the first [sequence_length + 1]
    tokens only. *)
Lemma content_buffer_prefix (sequence_length pad : Z) (tokens : Tensor) :
  0 <= sequence_length + 1 ->
  content_buffer sequence_length pad (take (Z.to_nat (sequence_length + 1)) tokens)
  = content_buffer sequence_length pad tokens.
Proof.
  intros Hs. unfold content_buffer, shape0.
  rewrite length_take, take_take.
  replace (Z.min (Z.of_nat (length tokens `min` Z.to_nat (sequence_length + 1)))
             (sequence_length + 1))
    with (Z.min (Z.of_nat (length tokens)) (sequence_length + 1)) by lia.
  f_equal; f_equal; lia.
Qed.

Lemma content_buffer_entries (sequence_length pad : Z) (tokens : Tensor) (x : Z) :
  x ∈ content_buffer sequence_length pad tokens -> x = pad \/ x ∈ tokens.
Proof.
  unfold content_buffer. intros [Hx|Hx]%elem_of_app.
  - right. apply elem_of_take in Hx as (i & Hi & _).
    apply list_elem_of_lookup. exists i. exact Hi.
  - left. apply elem_of_replicate_inv in Hx. exact Hx.
Qed.

Lemma frame_entries (buffer : list Z) (n : nat) (x : Z) :
  x ∈ take n buffer \/ x ∈ drop 1 buffer -> x ∈ buffer.
Proof.
  intros [Hx|Hx].
  - apply elem_of_take in Hx as (i & Hi & _). apply list_elem_of_lookup. eauto.
  - apply list_elem_of_lookup in Hx as (i & Hi). rewrite lookup_drop in Hi.
    apply list_elem_of_lookup. eauto.
Qed.

(** What a successful call went through. *)
Lemma tokenize_text_some_inv self text w d w' :
  _tokenize_text self text w = (Ret (Some d), w') ->
  exists toks s',
    min_characters_per_text self <= Py.len (_process_text text)
    /\ tok_call (tokenizer self) text (tok_state w) = (Ret toks, s')
    /\ min_tokens_per_text self <= shape0 toks
    /\ 0 <= sequence_length self + 1.
Proof.
  intros H.
  destruct (Z.lt_ge_cases (Py.len (_process_text text)) (min_characters_per_text self))
    as [Hc|Hc].
  { rewrite tokenize_text_short in H by assumption. discriminate. }
  destruct (tok_call (tokenizer self) text (tok_state w)) as [[toks|e] s'] eqn:Ht.
  2:{ rewrite (tokenize_text_tokenizer_raises self text w e s') in H by assumption.
      discriminate. }
  destruct (Z.lt_ge_cases (shape0 toks) (min_tokens_per_text self)) as [Hn|Hn].
  { rewrite (tokenize_text_few_tokens self text w toks s') in H by assumption.
    discriminate. }
  destruct (Z.lt_ge_cases (sequence_length self + 1) 0) as [Hs|Hs].
  { destruct (tokenize_text_negative_length self text w toks s') as [e He];
      try assumption.
    rewrite He in H. discriminate. }
  exists toks, s'. auto.
Qed.

End Framing.



(** X6.  The result of an accepted text is a dictionary with the two
    keys ["samples"] and ["targets"] and no other; for every
    [sequence_length >= -1] both tensors have [max(sequence_length, 0)]
    entries, so that with [sequence_length] 0 or -1 both are empty,
    whatever the text. *)
Theorem X6_output_shape
    {S : Type} (self : @BaseLMIterableDataset S) (text : string) (w : World S)
    (tokenized_text : Tensor) (s' : S) :
  min_characters_per_text self <= Py.len (_process_text text) ->
  tok_call (tokenizer self) text (tok_state w) = (Ret tokenized_text, s') ->
  min_tokens_per_text self <= shape0 tokenized_text ->
  -1 <= sequence_length self ->
  exists (d : gmap string Tensor) (samples targets : Tensor),
    _tokenize_text self text w = (Ret (Some d), after_call w s')
    /\ d !! "samples"%string = Some samples
    /\ d !! "targets"%string = Some targets
    /\ (forall key : string, key <> "samples"%string -> key <> "targets"%string ->
        d !! key = None)
    /\ shape0 samples = Z.max (sequence_length self) 0
    /\ shape0 targets = Z.max (sequence_length self) 0
    /\ (sequence_length self <= 0 -> samples = [] /\ targets = []).
Proof.
  intros Hc Ht Hn Hs.
  set (buffer := content_buffer (sequence_length self) (pad_token_id self) tokenized_text).
  assert (Hlen : length buffer = Z.to_nat (sequence_length self + 1))
    by (apply content_buffer_length; lia).
  exists {[ "samples"%string := take (Z.to_nat (sequence_length self)) buffer;
            "targets"%string := drop 1 buffer ]},
    (take (Z.to_nat (sequence_length self)) buffer), (drop 1 buffer).
  split; [apply tokenize_text_accepted; (assumption || lia)|].
  split; [reflexivity|]. split; [reflexivity|].
  split.
  { intros key H1 H2. rewrite lookup_insert_ne by congruence.
    apply lookup_singleton_ne. congruence. }
  assert (Hls : length (take (Z.to_nat (sequence_length self)) buffer)
                = Z.to_nat (sequence_length self))
    by (rewrite length_take; lia).
  assert (Hlt : length (drop 1 buffer) = Z.to_nat (sequence_length self))
    by (rewrite length_drop; lia).
  split; [unfold shape0; lia|]. split; [unfold shape0; lia|].
  intros Hz. split; apply nil_length_inv; lia.
Qed.

Lemma X6_witness :
  exists d : gmap string Tensor,
    _tokenize_text (dataset_with (constant_tokenizer [7; 8; 9] 0) (opts_of 0 0 0))
      "any text" {| tok_state := tt; rng_state := random_Random 0 |}
    = (Ret (Some d), {| tok_state := tt; rng_state := random_Random 0 |})
    /\ d !! "samples"%string = Some [] /\ d !! "targets"%string = Some [].
Proof.
  destruct (X6_output_shape
              (dataset_with (constant_tokenizer [7; 8; 9] 0) (opts_of 0 0 0))
              "any text" {| tok_state := tt; rng_state := random_Random 0 |}
              [7; 8; 9] tt)
    as (d & samples & targets & Hrun & Hs & Ht & _ & _ & _ & Hempty).
  - vm_compute. discriminate.
  - reflexivity.
  - vm_compute. discriminate.
  - vm_compute. discriminate.
  - destruct Hempty as [-> ->]; [reflexivity|].
    exists d. repeat split; assumption.
Defined.

(** X7.  Only the first [sequence_length + 1] tokens of a text reach
    the result: two accepted texts whose tokenizations agree on these
    tokens give the same dictionary. *)
Theorem X7_later_tokens_are_dropped
    {S : Type} (self : @BaseLMIterableDataset S) (text1 text2 : string)
    (w1 w2 : World S) (tokens1 tokens2 : Tensor) (s1 s2 : S) :
  min_characters_per_text self <= Py.len (_process_text text1) ->
  min_characters_per_text self <= Py.len (_process_text text2) ->
  tok_call (tokenizer self) text1 (tok_state w1) = (Ret tokens1, s1) ->
  tok_call (tokenizer self) text2 (tok_state w2) = (Ret tokens2, s2) ->
  min_tokens_per_text self <= shape0 tokens1 ->
  min_tokens_per_text self <= shape0 tokens2 ->
  0 <= sequence_length self ->
  take (Z.to_nat (sequence_length self + 1)) tokens1
  = take (Z.to_nat (sequence_length self + 1)) tokens2 ->
  exists d,
    fst (_tokenize_text self text1 w1) = Ret (Some d)
    /\ fst (_tokenize_text self text2 w2) = Ret (Some d).
Proof.
  intros Hc1 Hc2 Ht1 Ht2 Hn1 Hn2 Hs Heq.
  rewrite (tokenize_text_accepted self text1 w1 tokens1 s1) by (assumption || lia).
  rewrite (tokenize_text_accepted self text2 w2 tokens2 s2) by (assumption || lia).
  rewrite <- (content_buffer_prefix _ _ tokens1) by lia.
  rewrite <- (content_buffer_prefix _ _ tokens2) by lia.
  rewrite Heq. eexists. split; reflexivity.
Qed.

Lemma X7_witness :
  exists d,
    fst (_tokenize_text (dataset_with char_tokenizer (opts_of 3 0 0)) "abcdef"
           {| tok_state := []; rng_state := random_Random 0 |}) = Ret (Some d)
    /\ fst (_tokenize_text (dataset_with char_tokenizer (opts_of 3 0 0)) "abcdxyz"
              {| tok_state := []; rng_state := random_Random 0 |}) = Ret (Some d).
Proof.
  apply (X7_later_tokens_are_dropped
           (dataset_with char_tokenizer (opts_of 3 0 0)) "abcdef" "abcdxyz"
           {| tok_state := []; rng_state := random_Random 0 |}
           {| tok_state := []; rng_state := random_Random 0 |}
           [97; 98; 99; 100; 101; 102] [97; 98; 99; 100; 120; 121; 122]
           ["abcdef"%string] ["abcdxyz"%string]);
    try reflexivity; vm_compute; discriminate.
Defined.

(** X8.  Lowering the thresholds never loses a sample: a text framed
    under [min_characters_per_text] and [min_tokens_per_text] is
    framed to the same dictionary, with the same effect on the
    tokenizer, under any thresholds that are not higher. *)
Theorem X8_thresholds_monotone
    {S : Type} (strict lenient : @BaseLMIterableDataset S) (text : string)
    (w w' : World S) (d : gmap string Tensor) :
  tokenizer lenient = tokenizer strict ->
  sequence_length lenient = sequence_length strict ->
  min_characters_per_text lenient <= min_characters_per_text strict ->
  min_tokens_per_text lenient <= min_tokens_per_text strict ->
  _tokenize_text strict text w = (Ret (Some d), w') ->
  _tokenize_text lenient text w = (Ret (Some d), w').
Proof.
  intros Htk Hseq Hc Hn Hrun.
  destruct (tokenize_text_some_inv strict text w d w' Hrun)
    as (toks & s' & Hc' & Ht & Hn' & Hs).
  rewrite (tokenize_text_accepted strict text w toks s') in Hrun by assumption.
  rewrite <- Hrun.
  rewrite (tokenize_text_accepted lenient text w toks s');
    [ | lia | rewrite Htk; exact Ht | lia | lia ].
  unfold pad_token_id. rewrite Htk, Hseq. reflexivity.
Qed.

Lemma X8_witness :
  _tokenize_text (dataset_with char_tokenizer (opts_of 3 0 0)) "abcdef"
    {| tok_state := []; rng_state := random_Random 0 |}
  = (Ret (Some {[ "samples" := [97; 98; 99]; "targets" := [98; 99; 100] ]}),
     {| tok_state := ["abcdef"%string]; rng_state := random_Random 0 |}).
Proof.
  apply (X8_thresholds_monotone
           (dataset_with char_tokenizer (opts_of 3 6 6))
           (dataset_with char_tokenizer (opts_of 3 0 0)) "abcdef");
    try reflexivity; vm_compute; discriminate.
Defined.

(** X9.  Every entry of [samples] and of [targets] is the padding token
    or one of the tokens the tokenizer returned; so when the tokens are
    in [[0, vocab_size)], every entry is in that range or is
    [pad_token_id]. *)
Theorem X9_entries_are_tokens_or_padding
    {S : Type} (self : @BaseLMIterableDataset S) (text : string) (w w' : World S)
    (tokenized_text : Tensor) (s' : S) (d : gmap string Tensor) :
  tok_call (tokenizer self) text (tok_state w) = (Ret tokenized_text, s') ->
  _tokenize_text self text w = (Ret (Some d), w') ->
  forall (key : string) (tensor : Tensor) (x : Z),
    d !! key = Some tensor -> x ∈ tensor ->
    (x = pad_token_id self \/ x ∈ tokenized_text)
    /\ ((forall t, t ∈ tokenized_text -> 0 <= t < vocab_size self) ->
        0 <= x < vocab_size self \/ x = pad_token_id self).
Proof.
  intros Ht Hrun key tensor x Hkey Hx.
  destruct (tokenize_text_some_inv self text w d w' Hrun)
    as (toks & s2 & Hc & Ht' & Hn & Hs).
  rewrite Ht in Ht'. injection Ht' as <- <-.
  rewrite (tokenize_text_accepted self text w tokenized_text s') in Hrun by assumption.
  injection Hrun as <- _.
  assert (Hin : x ∈ content_buffer (sequence_length self) (pad_token_id self)
                      tokenized_text).
  { apply (frame_entries _ (Z.to_nat (sequence_length self))).
    destruct (decide (key = "samples"%string)) as [->|Hk1].
    - rewrite lookup_insert_eq in Hkey. injection Hkey as <-. left. exact Hx.
    - rewrite lookup_insert_ne in Hkey by congruence.
      destruct (decide (key = "targets"%string)) as [->|Hk2].
      + rewrite lookup_singleton_eq in Hkey. injection Hkey as <-. right. exact Hx.
      + rewrite lookup_singleton_ne in Hkey by congruence. discriminate. }
  apply content_buffer_entries in Hin.
  split; [exact Hin|]. intros Hvocab. destruct Hin as [->|Hin]; [right; reflexivity|].
  left. apply Hvocab, Hin.
Qed.

Lemma X9_witness :
  104 = 0 \/ 104 ∈ [72; 105; 32; 116; 104; 101; 114; 101].
Proof.
  refine (proj1 (X9_entries_are_tokens_or_padding
            one_unit_dataset "Hi there" one_unit_world
            (after_call one_unit_world ["Hi there"%string])
            [72; 105; 32; 116; 104; 101; 114; 101] ["Hi there"%string]
            {[ "samples" := [72; 105; 32; 116]; "targets" := [105; 32; 116; 104] ]}
            _ _ "targets"%string [105; 32; 116; 104] 104 _ _)).
  - reflexivity.
  - reflexivity.
  - reflexivity.
  - apply list_elem_of_In. simpl. tauto.
Defined.

(** ** More on the shard coordinate *)

(** X10.  The shard coordinate can be decoded: for a worker with
    [0 <= worker_id < num_workers], the floor quotient of [scaled_rank]
    by [num_workers] is the process rank and the remainder is the
    worker id. *)
Theorem X10_scaled_rank_decodes {S : Type} (self : @BaseLMIterableDataset S) :
  0 <= worker_id self < num_workers self ->
  scaled_rank self / num_workers self = rank self
  /\ scaled_rank self mod num_workers self = worker_id self.
Proof.
  intros Hw. unfold scaled_rank. split.
  - rewrite Z.div_add_l by lia. rewrite Z.div_small by lia. lia.
  - rewrite Z.add_comm, Z.mod_add by lia. apply Z.mod_small. lia.
Qed.

Lemma X10_witness :
  scaled_rank (on_worker (dataset_with char_tokenizer default_opts) (topology 3 4 2 1)) = 9
  /\ 9 / 4 = 2 /\ 9 mod 4 = 1.
Proof.
  split; [reflexivity|].
  apply (X10_scaled_rank_decodes
           (on_worker (dataset_with char_tokenizer default_opts) (topology 3 4 2 1))).
  split; [discriminate | reflexivity].
Defined.

(** X11.  The workers of one process take a block of [num_workers]
    consecutive scaled ranks that starts at [rank * num_workers], and
    the scaled ranks order the workers by process first and by worker
    id within a process. *)
Theorem X11_scaled_rank_blocks
    {S : Type} (self other : @BaseLMIterableDataset S) :
  num_workers other = num_workers self ->
  0 <= worker_id self < num_workers self ->
  0 <= worker_id other < num_workers other ->
  (rank self * num_workers self <= scaled_rank self
     < (rank self + 1) * num_workers self)
  /\ (scaled_rank self < scaled_rank other
      <-> rank self < rank other
          \/ (rank self = rank other /\ worker_id self < worker_id other)).
Proof.
  intros HM Hs Ho. unfold scaled_rank. rewrite HM in *.
  split; [lia|]. split.
  - intros Hlt.
    destruct (Z.lt_trichotomy (rank self) (rank other)) as [?|[E|?]];
      [left; assumption | right; split; [assumption|rewrite E in Hlt; lia] | nia].
  - intros [Hlt|[E Hlt]]; [nia | rewrite E; lia].
Qed.

Lemma X11_witness :
  scaled_rank (on_worker (dataset_with char_tokenizer default_opts) (topology 3 4 1 3))
  < scaled_rank (on_worker (dataset_with char_tokenizer default_opts) (topology 3 4 2 0)).
Proof.
  apply (X11_scaled_rank_blocks
           (on_worker (dataset_with char_tokenizer default_opts) (topology 3 4 1 3))
           (on_worker (dataset_with char_tokenizer default_opts) (topology 3 4 2 0))).
  - reflexivity.
  - split; [discriminate | reflexivity].
  - split; [discriminate | reflexivity].
  - left. reflexivity.
Defined.

(** X12.  Nothing guards a worker count of zero: then the scaled world
    size is 0, the scaled rank is the worker id whatever the process,
    no scaled rank lies below the scaled world size, and two processes
    whose workers have the same id get the same coordinate. *)
Theorem X12_zero_workers_collide
    {S : Type} (self other : @BaseLMIterableDataset S) :
  num_workers self = 0 -> num_workers other = 0 ->
  worker_id other = worker_id self ->
  scaled_world_size self = 0
  /\ scaled_rank self = worker_id self
  /\ ~ (0 <= scaled_rank self < scaled_world_size self)
  /\ (scaled_rank self, scaled_world_size self)
     = (scaled_rank other, scaled_world_size other).
Proof.
  intros Hs Ho Hw. unfold scaled_rank, scaled_world_size.
  rewrite Hs, Ho, Hw, !Z.mul_0_r. repeat split. lia.
Qed.

Lemma X12_witness :
  (scaled_rank (on_worker (dataset_with char_tokenizer default_opts) (topology 2 0 0 0)),
   scaled_world_size (on_worker (dataset_with char_tokenizer default_opts) (topology 2 0 0 0)))
  = (scaled_rank (on_worker (dataset_with char_tokenizer default_opts) (topology 2 0 1 0)),
     scaled_world_size (on_worker (dataset_with char_tokenizer default_opts) (topology 2 0 1 0))).
Proof.
  apply (X12_zero_workers_collide
           (on_worker (dataset_with char_tokenizer default_opts) (topology 2 0 0 0))
           (on_worker (dataset_with char_tokenizer default_opts) (topology 2 0 1 0)));
    reflexivity.
Defined.

(** ** Registering the options *)

Section Arguments.

Implicit Types (parser : ArgumentParser) (a : Action).

Lemma registered_app parser1 parser2 (flag : string) :
  registered (parser1 ++ parser2) flag
  = registered parser1 flag || registered parser2 flag.
Proof. unfold registered. rewrite map_app. apply existsb_app. Qed.

Lemma registered_elem parser a : a ∈ parser -> registered parser (option_string a) = true.
Proof.
  intros Ha. unfold registered. apply existsb_exists.
  exists (option_string a). split; [|apply String.eqb_refl].
  apply in_map, list_elem_of_In, Ha.
Qed.

(** One more registration, after registrations that are known not to
    conflict with it. *)
Ltac conflict_step parser flag :=
  rewrite ?registered_app;
  repeat match goal with
         | |- context [registered [?a] flag] => change (registered [a] flag) with false
         end;
  rewrite ?orb_false_r;
  destruct (registered parser flag); [reflexivity|]; cbn [and_then].

(** The five registrations succeed together or the call raises. *)
Lemma add_arguments_base parser :
  add_arguments BaseLMIterableDataset_class parser
  = if registered parser (option_string sequence_length_action)
       || registered parser (option_string min_tokens_action)
       || registered parser (option_string min_characters_action)
       || registered parser (option_string shuffle_data_action)
       || registered parser (option_string random_seed_action)
    then Raise (ExternalError "argparse.ArgumentError: conflicting option string")
    else Ret (parser ++ [sequence_length_action; min_tokens_action;
                         min_characters_action; shuffle_data_action;
                         random_seed_action]).
Proof.
  unfold add_arguments, add_argument.
  cbv beta iota delta [is_base_class option_string sequence_length_action
    min_tokens_action min_characters_action shuffle_data_action random_seed_action].
  destruct (registered parser "--dataset.language-modeling.sequence-length");
    [reflexivity|].
  cbn [and_then]. conflict_step parser "--dataset.language-modeling.min-tokens-per-text".
  conflict_step parser "--dataset.language-modeling.min-characters-per-text".
  conflict_step parser "--dataset.language-modeling.shuffle-data".
  conflict_step parser "--dataset.language-modeling.random-seed".
  rewrite <- !app_assoc. reflexivity.
Qed.

Lemma add_arguments_all_derived (names : list string) parser :
  add_arguments_all (map Derived_class names) parser = Ret parser.
Proof. induction names as [|name names IH]; [reflexivity|exact IH]. Qed.

(** What parsing an empty command line stores under an attribute. *)
Lemma parse_defaults_lookup (namespace : gmap string PyVal) parser (name : string) :
  parse_defaults_from namespace parser !! name
  = match namespace !! name with
    | Some v => Some v
    | None =>
        arg_default <$> List.find (fun a => bool_decide (arg_dest a = name)) parser
    end.
Proof.
  revert namespace. induction parser as [|a parser IH]; intros namespace.
  { simpl. destruct (namespace !! name); reflexivity. }
  simpl. rewrite IH.
  destruct (namespace !! arg_dest a) as [v|] eqn:Ea.
  - destruct (namespace !! name) as [u|] eqn:En; [reflexivity|].
    rewrite bool_decide_eq_false_2 by congruence. reflexivity.
  - destruct (decide (arg_dest a = name)) as [<-|Hne].
    + rewrite lookup_insert_eq, Ea, bool_decide_eq_true_2 by reflexivity.
      reflexivity.
    + rewrite lookup_insert_ne, bool_decide_eq_false_2 by assumption.
      reflexivity.
Qed.

Lemma find_app_dest parser1 parser2 (name : string) :
  List.find (fun a => bool_decide (arg_dest a = name)) (parser1 ++ parser2)
  = match List.find (fun a => bool_decide (arg_dest a = name)) parser1 with
    | Some a => Some a
    | None => List.find (fun a => bool_decide (arg_dest a = name)) parser2
    end.
Proof.
  induction parser1 as [|a parser1 IH]; [reflexivity|].
  simpl. destruct (bool_decide (arg_dest a = name)); [reflexivity|exact IH].
Qed.

Lemma find_dest_none parser (name : string) :
  (forall a, a ∈ parser -> arg_dest a <> name) ->
  List.find (fun a => bool_decide (arg_dest a = name)) parser = None.
Proof.
  induction parser as [|a parser IH]; intros H; [reflexivity|].
  simpl. rewrite bool_decide_eq_false_2 by (apply H; left).
  apply IH. intros b Hb. apply H. right. exact Hb.
Qed.

Lemma getattr_parse parser (name : string) :
  getattr (parse_no_args parser) name
  = match List.find (fun a => bool_decide (arg_dest a = name)) parser with
    | Some a => Ret (arg_default a)
    | None => Raise (ExternalError "AttributeError")
    end.
Proof.
  unfold getattr, parse_no_args. rewrite parse_defaults_lookup, lookup_empty.
  destruct (List.find _ parser); reflexivity.
Qed.

End Arguments.

(** X13.  The options are registered once for the whole class
    hierarchy: called on a derived class [add_arguments] returns the
    parser as it is; called on [BaseLMIterableDataset] it appends the
    five options, in order, when none of their option strings is taken,
    and raises otherwise, so that a second call on the base class
    raises, while any number of calls on derived classes after the
    first adds nothing. *)
Theorem X13_add_arguments_registers_once
    (parser : ArgumentParser) (derived : list string) :
  let options := [sequence_length_action; min_tokens_action; min_characters_action;
                  shuffle_data_action; random_seed_action] in
  (forall name, add_arguments (Derived_class name) parser = Ret parser)
  /\ ((forall a, a ∈ options -> registered parser (option_string a) = false) ->
      add_arguments BaseLMIterableDataset_class parser = Ret (parser ++ options)
      /\ add_arguments_all
           (BaseLMIterableDataset_class :: map Derived_class derived) parser
         = Ret (parser ++ options)
      /\ exists e,
           add_arguments BaseLMIterableDataset_class (parser ++ options) = Raise e)
  /\ (forall a, a ∈ options -> registered parser (option_string a) = true ->
      exists e, add_arguments BaseLMIterableDataset_class parser = Raise e).
Proof.
  intros options. split; [reflexivity|]. split.
  - intros Hfree.
    assert (Hbase : add_arguments BaseLMIterableDataset_class parser
                    = Ret (parser ++ options)).
    { rewrite add_arguments_base.
      rewrite !Hfree by (unfold options; set_solver). reflexivity. }
    split; [exact Hbase|]. split.
    + simpl add_arguments_all. rewrite Hbase. simpl.
      apply add_arguments_all_derived.
    + rewrite add_arguments_base.
      rewrite (registered_elem (parser ++ options) sequence_length_action)
        by (unfold options; set_solver).
      eexists. reflexivity.
  - intros a Ha Hreg. rewrite add_arguments_base.
    unfold options in Ha.
    repeat (apply elem_of_cons in Ha as [->|Ha]);
      [ .. | apply elem_of_nil in Ha; contradiction ];
      rewrite Hreg, ?orb_true_r; eexists; reflexivity.
Qed.

Lemma X13_witness :
  add_arguments_all
    [BaseLMIterableDataset_class; Derived_class "GeneralLMDataset";
     Derived_class "AnotherLMDataset"] []
  = Ret [sequence_length_action; min_tokens_action; min_characters_action;
         shuffle_data_action; random_seed_action]
  /\ exists e,
       add_arguments BaseLMIterableDataset_class
         [sequence_length_action; min_tokens_action; min_characters_action;
          shuffle_data_action; random_seed_action] = Raise e.
Proof.
  destruct (X13_add_arguments_registers_once []
              ["GeneralLMDataset"%string; "AnotherLMDataset"%string])
    as (_ & Hfree & _).
  destruct Hfree as (_ & Hall & Htwice); [reflexivity|].
  split; [exact Hall | exact Htwice].
Defined.

(** X14.  The attributes that [__init__] reads from [opts] are the
    ones under which [argparse] stores the options of [add_arguments]:
    after a successful registration on the base class, parsing an empty
    command line gives a namespace on which none of the five [getattr]
    raises, and, when no other action stores under these attributes,
    they hold the defaults [False], 0, 2048, 0 and 0; on a parser where
    no action stores under one of them, [__init__] fails with
    [AttributeError]. *)
Theorem X14_registered_options_reach_init (parser parser' : ArgumentParser) :
  let options := [sequence_length_action; min_tokens_action; min_characters_action;
                  shuffle_data_action; random_seed_action] in
  (add_arguments BaseLMIterableDataset_class parser = Ret parser' ->
   (exists values, init_getattrs (parse_no_args parser') = Ret values)
   /\ ((forall a b, a ∈ parser -> b ∈ options -> arg_dest a <> arg_dest b) ->
       init_getattrs (parse_no_args parser')
       = Ret (PyBool false, PyInt 0, PyInt 2048, PyInt 0, PyInt 0)))
  /\ (forall b, b ∈ options ->
      (forall a, a ∈ parser -> arg_dest a <> arg_dest b) ->
      init_getattrs (parse_no_args parser) = Raise (ExternalError "AttributeError")).
Proof.
  intros options. split.
  - intros Hadd. rewrite add_arguments_base in Hadd.
    destruct (_ || _) in Hadd; [discriminate|]. injection Hadd as <-.
    split.
    + unfold init_getattrs. rewrite !getattr_parse, !find_app_dest.
      repeat (match goal with
              | |- context [List.find ?f parser] => destruct (List.find f parser)
              end; simpl);
        eexists; reflexivity.
    + intros Hfresh. unfold init_getattrs.
      rewrite !getattr_parse, !find_app_dest.
      rewrite (find_dest_none parser "dataset.language_modeling.shuffle_data")
        by (intros a Ha; apply (Hfresh a shuffle_data_action Ha);
            unfold options; set_solver).
      rewrite (find_dest_none parser "dataset.language_modeling.random_seed")
        by (intros a Ha; apply (Hfresh a random_seed_action Ha);
            unfold options; set_solver).
      rewrite (find_dest_none parser "dataset.language_modeling.sequence_length")
        by (intros a Ha; apply (Hfresh a sequence_length_action Ha);
            unfold options; set_solver).
      rewrite (find_dest_none parser "dataset.language_modeling.min_tokens_per_text")
        by (intros a Ha; apply (Hfresh a min_tokens_action Ha);
            unfold options; set_solver).
      rewrite (find_dest_none parser "dataset.language_modeling.min_characters_per_text")
        by (intros a Ha; apply (Hfresh a min_characters_action Ha);
            unfold options; set_solver).
      reflexivity.
  - intros b Hb Hmissing. unfold init_getattrs. rewrite !getattr_parse.
    pose proof (find_dest_none parser (arg_dest b) Hmissing) as Hnone.
    unfold options in Hb.
    repeat (apply elem_of_cons in Hb as [->|Hb]);
      [ .. | apply elem_of_nil in Hb; contradiction ];
      change (arg_dest sequence_length_action)
        with "dataset.language_modeling.sequence_length"%string in Hnone;
      change (arg_dest min_tokens_action)
        with "dataset.language_modeling.min_tokens_per_text"%string in Hnone;
      change (arg_dest min_characters_action)
        with "dataset.language_modeling.min_characters_per_text"%string in Hnone;
      change (arg_dest shuffle_data_action)
        with "dataset.language_modeling.shuffle_data"%string in Hnone;
      change (arg_dest random_seed_action)
        with "dataset.language_modeling.random_seed"%string in Hnone;
      rewrite Hnone;
      repeat (match goal with
              | |- context [List.find ?f parser] => destruct (List.find f parser)
              end; simpl);
      reflexivity.
Qed.

Lemma X14_witness :
  init_getattrs
    (parse_no_args [sequence_length_action; min_tokens_action; min_characters_action;
                    shuffle_data_action; random_seed_action])
  = Ret (PyBool false, PyInt 0, PyInt 2048, PyInt 0, PyInt 0)
  /\ init_getattrs (parse_no_args [sequence_length_action])
     = Raise (ExternalError "AttributeError").
Proof.
  split.
  - destruct (X14_registered_options_reach_init []
                [sequence_length_action; min_tokens_action; min_characters_action;
                 shuffle_data_action; random_seed_action]) as [Hok _].
    destruct (Hok eq_refl) as [_ Hdefaults].
    apply Hdefaults. intros a b Ha. apply elem_of_nil in Ha. contradiction.
  - destruct (X14_registered_options_reach_init [sequence_length_action] [])
      as [_ Hmissing].
    apply (Hmissing shuffle_data_action).
    + apply list_elem_of_In. simpl. tauto.
    + intros a Ha. apply list_elem_of_singleton in Ha. subst a.
      vm_compute. discriminate.
Defined.

(** ** The summary of an instance *)

Section Summary.

Local Open Scope string_scope.

Lemma append_cancel_l (p a b : string) : p ++ a = p ++ b -> a = b.
Proof. induction p as [|c p IH]; simpl; [tauto|]. intros [= H]. apply IH, H. Qed.

(** Two texts without the character [c], each followed by [c] and more,
    are equal only part by part. *)
Lemma split_at_char (c : ascii) (s1 s2 r1 r2 : string) :
  Py.str_contains s1 c = false -> Py.str_contains s2 c = false ->
  s1 ++ String c r1 = s2 ++ String c r2 -> s1 = s2 /\ r1 = r2.
Proof.
  revert s2. induction s1 as [|d s1 IH]; intros [|e s2] H1 H2 E; simpl in *.
  - injection E as <-. tauto.
  - injection E as <- _. rewrite Ascii.eqb_refl in H2. discriminate.
  - injection E as -> _. rewrite Ascii.eqb_refl in H1. discriminate.
  - injection E as <- E.
    apply orb_false_elim in H1 as [_ H1]. apply orb_false_elim in H2 as [_ H2].
    destruct (IH s2 H1 H2 E) as [-> ->]. tauto.
Qed.

Lemma string_of_uint_no_newline (d : Decimal.uint) :
  Py.str_contains (NilEmpty.string_of_uint d) newline = false.
Proof. induction d; simpl; try assumption; reflexivity. Qed.

Lemma format_int_no_newline (n : Z) : Py.str_contains (format_int n) newline = false.
Proof.
  unfold format_int. destruct (Z.to_int n) as [d|d]; simpl.
  - apply string_of_uint_no_newline.
  - apply string_of_uint_no_newline.
Qed.

Lemma format_int_inj (n m : Z) : format_int n = format_int m -> n = m.
Proof.
  unfold format_int. intros H. apply to_int_inj.
  apply (f_equal NilEmpty.int_of_string) in H. rewrite !NilEmpty.isi in H.
  congruence.
Qed.

Lemma format_bool_inj (b c : bool) : format_bool b = format_bool c -> b = c.
Proof. destruct b, c; simpl; congruence. Qed.

(** A line with an integer, followed by another line. *)
Lemma repr_line_int_inj (name : string) (n m : Z) (name' value1 value2 rest1 rest2 : string) :
  repr_line name (format_int n) (repr_line name' value1 rest1)
  = repr_line name (format_int m) (repr_line name' value2 rest2) ->
  n = m /\ repr_line name' value1 rest1 = repr_line name' value2 rest2.
Proof.
  unfold repr_line at 1 3. intros [= H].
  apply append_cancel_l in H. injection H as H.
  unfold repr_line in H.
  apply split_at_char in H as [Hn Hrest]; try apply format_int_no_newline.
  split; [apply format_int_inj, Hn|]. unfold repr_line. congruence.
Qed.

(** The last line, with the flag. *)
Lemma repr_line_bool_inj (name : string) (b c : bool) :
  repr_line name (format_bool b) "" = repr_line name (format_bool c) "" -> b = c.
Proof.
  destruct b, c; try reflexivity; intros H; unfold repr_line in H;
    injection H as H; apply append_cancel_l in H; discriminate H.
Qed.

End Summary.

(** X15.  The summary shows the vocabulary size, the padding token, the
    two thresholds and the shuffle flag, each on its own line, and
    nothing else: two instances have the same summary exactly when they
    agree on these five values, whatever their sequence lengths and
    seeds. *)
Theorem X15_extra_repr_shows_five_values
    {S : Type} (self other : @BaseLMIterableDataset S) :
  extra_repr self = extra_repr other
  <-> (vocab_size self = vocab_size other
       /\ pad_token_id self = pad_token_id other
       /\ min_characters_per_text self = min_characters_per_text other
       /\ min_tokens_per_text self = min_tokens_per_text other
       /\ shuffle_data self = shuffle_data other).
Proof.
  unfold extra_repr. split.
  - intros H.
    apply repr_line_int_inj in H as [Hv H].
    apply repr_line_int_inj in H as [Hp H].
    apply repr_line_int_inj in H as [Hc H].
    apply repr_line_int_inj in H as [Hn H].
    apply repr_line_bool_inj in H.
    repeat split; assumption.
  - intros (-> & -> & -> & -> & ->). reflexivity.
Qed.

Lemma X15_witness :
  extra_repr (dataset_with char_tokenizer (opts_of 4 3 7))
  = (String newline (String tab "vocab_size=256")
     ++ String newline (String tab "pad_token_id=0")
     ++ String newline (String tab "min_characters_per_text=7")
     ++ String newline (String tab "min_tokens_per_text=3")
     ++ String newline (String tab "shuffle=False"))%string
  /\ extra_repr (dataset_with char_tokenizer (with_random_seed (opts_of 2048 3 7) 5))
     = extra_repr (dataset_with char_tokenizer (opts_of 4 3 7)).
Proof.
  split; [reflexivity|].
  apply (proj2 (X15_extra_repr_shows_five_values
                  (dataset_with char_tokenizer (with_random_seed (opts_of 2048 3 7) 5))
                  (dataset_with char_tokenizer (opts_of 4 3 7)))).
  repeat split.
Defined.

(** ** What the tokenizer is given *)

(** X16.  The tokenizer is called with the raw text, not with the
    normalized one, once for a text that passes the character filter
    and never for one that does not; the calls made are the same
    whether the tokenizer answers, raises, or the text is then skipped
    by the token filter. *)
Theorem X16_tokenizer_sees_raw_text_once
    {S : Type} (self : @BaseLMIterableDataset S) (text : string)
    (s : S) (log : list string) (r : Random) :
  let w := {| tok_state := s; rng_state := r |} in
  let w_observed := {| tok_state := (s, log); rng_state := r |} in
  fst (_tokenize_text (observed self) text w_observed) = fst (_tokenize_text self text w)
  /\ fst (tok_state (snd (_tokenize_text (observed self) text w_observed)))
     = tok_state (snd (_tokenize_text self text w))
  /\ snd (tok_state (snd (_tokenize_text (observed self) text w_observed)))
     = if Py.len (_process_text text) <? min_characters_per_text self
       then log else text :: log.
Proof.
  intros w w_observed. unfold _tokenize_text, pad_token_id. simpl.
  destruct (Py.len (_process_text text) <? min_characters_per_text self);
    [repeat split|].
  unfold bind, call_tokenizer, lift, ret. simpl.
  destruct (tok_call (tokenizer self) text s) as [[toks|e] s'];
    [|repeat split].
  destruct (shape0 toks <? min_tokens_per_text self); [repeat split|].
  destruct (full (sequence_length self + 1) (tok_pad_token_id (tokenizer self)))
    as [content|e]; [|repeat split].
  destruct (setitem_slice content None
              (Some (Z.min (shape0 toks) (sequence_length self + 1)))
              (getitem_slice toks None
                 (Some (Z.min (shape0 toks) (sequence_length self + 1)))));
    repeat split.
Qed.

(** ** The two tensors in terms of the tokens *)

Section ClosedForm.

Variables (sequence_length pad : Z) (tokens : Tensor).
Hypothesis Hseq : 0 <= sequence_length.

Lemma frame_of_short_text :
  1 <= shape0 tokens <= sequence_length ->
  take (Z.to_nat sequence_length) (content_buffer sequence_length pad tokens)
  = tokens ++ replicate (Z.to_nat (sequence_length - shape0 tokens)) pad
  /\ drop 1 (content_buffer sequence_length pad tokens)
     = drop 1 tokens ++ replicate (Z.to_nat (sequence_length + 1 - shape0 tokens)) pad.
Proof.
  intros Hn. unfold content_buffer. unfold shape0 in *.
  rewrite Z.min_l by lia. rewrite Nat2Z.id, firstn_all. split.
  - rewrite take_app_ge by lia. rewrite take_replicate. do 2 f_equal. lia.
  - rewrite drop_app_le by lia. reflexivity.
Qed.

Lemma frame_of_long_text :
  sequence_length + 1 <= shape0 tokens ->
  take (Z.to_nat sequence_length) (content_buffer sequence_length pad tokens)
  = take (Z.to_nat sequence_length) tokens
  /\ drop 1 (content_buffer sequence_length pad tokens)
     = take (Z.to_nat sequence_length) (drop 1 tokens).
Proof.
  intros Hn. unfold content_buffer. unfold shape0 in *.
  rewrite Z.min_r by lia.
  replace (sequence_length + 1 - (sequence_length + 1)) with 0 by lia.
  simpl replicate. rewrite app_nil_r. split.
  - rewrite take_take. f_equal. lia.
  - rewrite take_drop_commute. do 2 f_equal. lia.
Qed.

End ClosedForm.

(** X17.  The two tensors in terms of the tokens.  A text of at least
    one and at most [sequence_length] tokens gives [samples] = the
    tokens followed by padding and [targets] = the tokens without the
    first followed by one more padding entry, so that the target of the
    last token is the padding token.  A text of more than
    [sequence_length] tokens gives the first [sequence_length] tokens
    and the [sequence_length] tokens after the first, without any
    padding. *)
Theorem X17_samples_and_targets_closed_form
    {S : Type} (self : @BaseLMIterableDataset S) (text : string) (w : World S)
    (tokenized_text : Tensor) (s' : S) :
  min_characters_per_text self <= Py.len (_process_text text) ->
  tok_call (tokenizer self) text (tok_state w) = (Ret tokenized_text, s') ->
  min_tokens_per_text self <= shape0 tokenized_text ->
  0 <= sequence_length self ->
  let n_tokens := shape0 tokenized_text in
  let pad k := replicate (Z.to_nat k) (pad_token_id self) in
  (1 <= n_tokens <= sequence_length self ->
   _tokenize_text self text w
   = (Ret (Some {[ "samples" := tokenized_text ++ pad (sequence_length self - n_tokens);
                   "targets" := drop 1 tokenized_text
                                ++ pad (sequence_length self + 1 - n_tokens) ]}),
      after_call w s'))
  /\ (sequence_length self + 1 <= n_tokens ->
      _tokenize_text self text w
      = (Ret (Some {[ "samples" := take (Z.to_nat (sequence_length self)) tokenized_text;
                      "targets" := take (Z.to_nat (sequence_length self))
                                     (drop 1 tokenized_text) ]}),
         after_call w s')).
Proof.
  intros Hc Ht Hn Hs n_tokens pad.
  pose proof (tokenize_text_accepted self text w tokenized_text s' Hc Ht Hn) as Hrun.
  cbv zeta in Hrun. split; intros Hcase.
  - destruct (frame_of_short_text (sequence_length self) (pad_token_id self)
                tokenized_text Hs Hcase) as [E1 E2].
    rewrite Hrun, E1, E2 by lia. reflexivity.
  - destruct (frame_of_long_text (sequence_length self) (pad_token_id self)
                tokenized_text Hs Hcase) as [E1 E2].
    rewrite Hrun, E1, E2 by lia. reflexivity.
Qed.

Lemma X17_witness :
  _tokenize_text (dataset_with char_tokenizer (opts_of 4 0 0)) "abc"
    {| tok_state := []; rng_state := random_Random 0 |}
  = (Ret (Some {[ "samples" := [97; 98; 99; 0]; "targets" := [98; 99; 0; 0] ]}),
     {| tok_state := ["abc"%string]; rng_state := random_Random 0 |})
  /\ _tokenize_text (dataset_with char_tokenizer (opts_of 2 0 0)) "abcde"
       {| tok_state := []; rng_state := random_Random 0 |}
     = (Ret (Some {[ "samples" := [97; 98]; "targets" := [98; 99] ]}),
        {| tok_state := ["abcde"%string]; rng_state := random_Random 0 |}).
Proof.
  split.
  - refine (proj1 (X17_samples_and_targets_closed_form
              (dataset_with char_tokenizer (opts_of 4 0 0)) "abc"
              {| tok_state := []; rng_state := random_Random 0 |}
              [97; 98; 99] ["abc"%string] _ _ _ _) _);
      try reflexivity; vm_compute; try discriminate.
    split; discriminate.
  - refine (proj2 (X17_samples_and_targets_closed_form
              (dataset_with char_tokenizer (opts_of 2 0 0)) "abcde"
              {| tok_state := []; rng_state := random_Random 0 |}
              [97; 98; 99; 100; 101] ["abcde"%string] _ _ _ _) _);
      try reflexivity; vm_compute; discriminate.
Defined.
